(** * mkdocs-git-revision-date-localized-plugin: [util.py]

    A shallow embedding of [mkdocs_git_revision_date_localized_plugin/util.py]
    (class [Util], [is_shallow_clone], [commit_count]) together with the
    parts of Python, GitPython and Babel the module calls, followed
    by the properties of the module that its specification states.

    Conventions.
    - A Python [str] is a [string]; all text handled here (git output,
      identifiers, formatted digits) is ASCII. The methods of [str] take
      as whitespace what [str.isspace] does; [int] skips the whitespace of
      C only.
    - A Python [int] is a [Z]; the [float] returned by [time.time()] is a
      rational [Q] (every finite float is one), and [int(float)] truncates
      toward zero.
    - Side effects that the module performs (log records, git command
      invocations) are collected, in order, in a trace; a raised exception
      ends the computation and keeps the trace produced so far. *)

From Stdlib Require Import ZArith QArith Ascii String List Lia.
From stdpp Require Import base gmap strings list.

Open Scope string_scope.
Open Scope list_scope.
Open Scope Z_scope.

(* ===================================================================== *)
(** * Python builtins used by the module *)
(* ===================================================================== *)

Module Py.

(** Exceptions that can travel through [util.py]. *)
Inductive exn : Type :=
  | InvalidGitRepositoryError (path : string)
  | NoSuchPathError (path : string)
  | GitCommandError (status : Z) (stderr : string)
  | GitCommandNotFound
  | IndexError
  | ValueError (msg : string)
  | OverflowError (msg : string)
  | LookupError (msg : string)
  | UnknownLocaleError (identifier : string)
  | AttributeError (name : string).

(** Values a configuration dictionary can hold. *)
Inductive value : Type :=
  | None_
  | Bool (b : bool)
  | Int (n : Z)
  | Str (s : string).

(** Truth value testing ([bool(x)]). *)
Definition truthy (v : value) : bool :=
  match v with
  | None_ => false
  | Bool b => b
  | Int n => negb (n =? 0)
  | Str s => negb (String.eqb s "")
  end.

(** [d.get(k)] followed by truth testing: a missing key gives [None]. *)
Definition get_truthy (d : gmap string value) (k : string) : bool :=
  match d !! k with
  | Some v => truthy v
  | None => false
  end.

(** Truth value of [os.environ.get(k)]: set and not the empty string. *)
Definition env_truthy (environ : gmap string string) (k : string) : bool :=
  match environ !! k with
  | Some s => negb (String.eqb s "")
  | None => false
  end.

(** [c.isspace()] on ASCII. *)
Definition isspace (c : ascii) : bool :=
  match c with
  | " " | "009" | "010" | "011" | "012" | "013"
  | "028" | "029" | "030" | "031" => true
  | _ => false
  end%char.

(** [s.split(sep)] for a one-character separator: every occurrence of
    the separator ends a field, empty fields are kept, and the result is
    never the empty list. *)
Fixpoint split_sep (sep : ascii) (s : string) : list string :=
  match s with
  | EmptyString => [EmptyString]
  | String c s' =>
      if Ascii.eqb c sep then EmptyString :: split_sep sep s'
      else match split_sep sep s' with
           | f :: fs => String c f :: fs
           | [] => [String c EmptyString]
           end
  end.

(** [s.split()]: fields are maximal runs of non-whitespace characters;
    [cur] is the field being read, if any. *)
Fixpoint split_ws_aux (cur : option string) (s : string) : list string :=
  match s with
  | EmptyString =>
      match cur with
      | Some f => [f]
      | None => []
      end
  | String c s' =>
      if isspace c then
        match cur with
        | Some f => f :: split_ws_aux None s'
        | None => split_ws_aux None s'
        end
      else
        match cur with
        | Some f => split_ws_aux (Some (f +:+ String c EmptyString)) s'
        | None => split_ws_aux (Some (String c EmptyString)) s'
        end
  end.

Definition split (s : string) : list string := split_ws_aux None s.

(** [l[0]]. *)
Definition item0 {A} (l : list A) : exn + A :=
  match l with
  | x :: _ => inr x
  | [] => inl IndexError
  end.

(** The whitespace that [int] skips around a literal: blank, tab,
    newline, vertical tab, form feed and carriage return. The separators
    28 to 31, which are whitespace for [str.split], are not skipped. *)
Definition c_isspace (c : ascii) : bool :=
  match c with
  | " " | "009" | "010" | "011" | "012" | "013" => true
  | _ => false
  end%char.

Fixpoint lstrip (s : string) : string :=
  match s with
  | String c s' => if c_isspace c then lstrip s' else s
  | EmptyString => EmptyString
  end.

Fixpoint rstrip (s : string) : string :=
  match s with
  | EmptyString => EmptyString
  | String c s' =>
      match rstrip s' with
      | EmptyString => if c_isspace c then EmptyString else String c EmptyString
      | r => String c r
      end
  end.

(** The literal inside the whitespace that [int] skips. *)
Definition strip (s : string) : string := rstrip (lstrip s).

Definition hex_digit (n : N) : ascii :=
  if (n <? 10)%N then ascii_of_N (48 + n) else ascii_of_N (87 + n).

Fixpoint contains (c : ascii) (s : string) : bool :=
  match s with
  | EmptyString => false
  | String x s' => Ascii.eqb x c || contains c s'
  end.

(** [repr] of one character inside the quotes [q]. *)
Definition repr_char (q c : ascii) : string :=
  let n := N_of_ascii c in
  if Ascii.eqb c q || Ascii.eqb c "\" then String "\" (String c "")
  else if Ascii.eqb c "009" then "\t"
  else if Ascii.eqb c "010" then "\n"
  else if Ascii.eqb c "013" then "\r"
  else if (n <? 32)%N || (n =? 127)%N then
    String "\" (String "x" (String (hex_digit (n / 16)) (String (hex_digit (n mod 16)) "")))
  else String c "".

Fixpoint repr_body (q : ascii) (s : string) : string :=
  match s with
  | EmptyString => ""
  | String c s' => repr_char q c +:+ repr_body q s'
  end.

(** [repr(s)]: single quotes, unless the text holds a single quote
    and no double quote. *)
Definition repr (s : string) : string :=
  let q := if contains "'" s && negb (contains "034" s) then "034"%char else "'"%char in
  String q (repr_body q s +:+ String q "").

(** The value of a decimal digit (characters 48 to 57). *)
Definition digit_val (c : ascii) : option Z :=
  let n := Z.of_N (N_of_ascii c) in
  if (48 <=? n) && (n <=? 57) then Some (n - 48) else None.

(** Decimal digits with single underscores allowed between digits.
    [after_digit] tells whether the previous character was a digit. *)
Fixpoint int_digits (acc : Z) (after_digit : bool) (s : string) : option Z :=
  match s with
  | EmptyString => if after_digit then Some acc else None
  | String c s' =>
      match digit_val c with
      | Some d => int_digits (10 * acc + d) true s'
      | None =>
          if Ascii.eqb c "_" && after_digit then
            match s' with
            | EmptyString => None
            | String c' _ =>
                match digit_val c' with
                | Some _ => int_digits acc false s'
                | None => None
                end
            end
          else None
      end
  end.

(** [int(s)] for a string: surrounding whitespace is skipped, one sign
    is allowed, the rest is a base-10 literal. The message shows at most
    200 characters of [repr(s)]. *)
Definition int_str (s : string) : exn + Z :=
  let bad :=
    inl (ValueError ("invalid literal for int() with base 10: "
                     +:+ substring 0 200 (repr s))) in
  match strip s with
  | String "+" r =>
      match int_digits 0 false r with Some n => inr n | None => bad end
  | String "-" r =>
      match int_digits 0 false r with Some n => inr (- n) | None => bad end
  | r =>
      match int_digits 0 false r with Some n => inr n | None => bad end
  end.

(** [int(x)] for a float: truncation toward zero. *)
Definition int_float (x : Q) : Z := Z.quot (Qnum x) (Z.pos (Qden x)).

(** [max(l)] on a list of integers. *)
Definition max (l : list Z) : exn + Z :=
  match l with
  | [] => inl (ValueError "max() arg is an empty sequence")
  | x :: xs => inr (fold_left Z.max xs x)
  end.

End Py.

(* ===================================================================== *)
(** * Effects: a trace of observable actions, and exceptions *)
(* ===================================================================== *)

Inductive level : Type := WARNING | ERROR.

(** Invocations of the git executable through a GitPython [Git] object,
    with the options [util.py] passes. *)
Inductive git_cmd : Type :=
  | CmdForEachRef
  | CmdRevList (rev : string)
  | CmdLog (path : string).

Inductive event : Type :=
  | Logged (lvl : level) (msg : string)
  | Ran (cmd : git_cmd).

(** A computation yields the events it performed and either the raised
    exception or a value. *)
Definition M (A : Type) : Type := list event * (Py.exn + A).

Definition ret {A} (x : A) : M A := ([], inr x).

Definition raise {A} (e : Py.exn) : M A := ([], inl e).

Definition bind {A B} (m : M A) (k : A -> M B) : M B :=
  match m with
  | (t, inl e) => (t, inl e)
  | (t, inr x) => let (t', r) := k x in (t ++ t', r)
  end.

Notation "x <- m ;; k" := (bind m (fun x => k))
  (at level 100, m at next level, right associativity).
Notation "m ;;; k" := (bind m (fun _ => k))
  (at level 100, right associativity).

Definition emit (ev : event) : M unit := ([ev], inr tt).

(** Lifting of a pure, fallible library call. *)
Definition lift {A} (r : Py.exn + A) : M A := ([], r).

(** [try: m except ...: h]: the handler selects the exceptions it
    catches; the others keep propagating. *)
Definition try_except {A} (m : M A) (h : Py.exn -> option (M A)) : M A :=
  match m with
  | (t, inl e) =>
      match h e with
      | Some m' => let (t', r) := m' in (t ++ t', r)
      | None => (t, inl e)
      end
  | (t, inr x) => (t, inr x)
  end.

Definition when (b : bool) (m : M unit) : M unit := if b then m else ret tt.

(** [[f(x) for x in l]]: elements are evaluated left to right and the
    first exception ends the comprehension. *)
Fixpoint for_each {A B} (f : A -> M B) (l : list A) : M (list B) :=
  match l with
  | [] => ret []
  | x :: xs => y <- f x ;; ys <- for_each f xs ;; ret (y :: ys)
  end.

Definition trace {A} (m : M A) : list event := fst m.
Definition outcome {A} (m : M A) : Py.exn + A := snd m.

Definition logging_warning (msg : string) : M unit := emit (Logged WARNING msg).
Definition logging_error (msg : string) : M unit := emit (Logged ERROR msg).

(* ===================================================================== *)
(** * GitPython *)
(* ===================================================================== *)

(** How a git invocation fails: the command exits with an error
    ([GitCommandError]) or the executable cannot be started
    ([GitCommandNotFound]). *)
Inductive git_failure : Type :=
  | CommandFailed (status : Z) (stderr : string)
  | CommandNotFound.

Definition git_exn (f : git_failure) : Py.exn :=
  match f with
  | CommandFailed st err => Py.GitCommandError st err
  | CommandNotFound => Py.GitCommandNotFound
  end.

(** A [git.Git] command object bound to a repository, seen through the
    three commands the module runs:
    - [for_each_ref]: [repo.for_each_ref()];
    - [rev_list x]: [repo.rev_list(x, count=True, first_parent=True)];
    - [log p]: [repo.log(p, n=1, date="short", format="%at")].
    [git_dir] is the repository's metadata directory. *)
Record Git : Type := {
  git_dir : string;
  for_each_ref : git_failure + string;
  rev_list : string -> git_failure + string;
  log : string -> git_failure + string
}.

Definition run (cmd : git_cmd) (r : git_failure + string) : M string :=
  emit (Ran cmd) ;;;
  match r with
  | inl f => raise (git_exn f)
  | inr out => ret out
  end.

Definition git_for_each_ref (repo : Git) : M string :=
  run CmdForEachRef (for_each_ref repo).
Definition git_rev_list (repo : Git) (x : string) : M string :=
  run (CmdRevList x) (rev_list repo x).
Definition git_log (repo : Git) (path : string) : M string :=
  run (CmdLog path) (log repo path).

(* ===================================================================== *)
(** * Decimal output ([str(n)], [%d], [%02d]) *)
(* ===================================================================== *)

Module Fmt.

Definition digit_char (d : Z) : ascii := ascii_of_N (48 + Z.to_N d).

(** Digits of [n >= 0], most significant first, in front of [acc]. *)
Fixpoint dec_loop (fuel : nat) (n : Z) (acc : string) : string :=
  match fuel with
  | O => acc
  | S fuel' =>
      let acc' := String (digit_char (n mod 10)) acc in
      if n <? 10 then acc' else dec_loop fuel' (n / 10) acc'
  end.

Definition dec (n : Z) : string := dec_loop (S (Z.to_nat (Z.log2 n))) n "".

(** [str(n)]. *)
Definition str (n : Z) : string :=
  if n <? 0 then "-" +:+ dec (- n) else dec n.

Fixpoint zeros (k : nat) : string :=
  match k with
  | O => ""
  | S k' => String "0" (zeros k')
  end.

(** ["%0<width>d" % n]: the sign, then zeros, then the digits. *)
Definition zero_pad (width : nat) (n : Z) : string :=
  if n <? 0 then
    "-" +:+ zeros (width - 1 - String.length (dec (- n))) +:+ dec (- n)
  else zeros (width - String.length (dec n)) +:+ dec n.

End Fmt.

(* ===================================================================== *)
(** * [datetime] and Babel *)
(* ===================================================================== *)

Module Datetime.

(** Proleptic Gregorian date of the day that is [z] days after
    1970-01-01. *)
Definition civil_from_days (z : Z) : Z * Z * Z :=
  let z := z + 719468 in
  let era := z / 146097 in
  let doe := z - era * 146097 in
  let yoe := (doe - doe / 1460 + doe / 36524 - doe / 146096) / 365 in
  let doy := doe - (365 * yoe + yoe / 4 - yoe / 100) in
  let mp := (5 * doy + 2) / 153 in
  let d := doy - (153 * mp + 2) / 5 + 1 in
  let m := if mp <? 10 then mp + 3 else mp - 9 in
  let y := yoe + era * 400 in
  ((if m <=? 2 then y + 1 else y), m, d).

(** A naive [datetime], given by the number of seconds its wall-clock
    reading is after 1970-01-01 00:00:00 (microseconds are always 0
    here: every value comes from [int(...)]). *)
Record naive : Type := { naive_wall : Z }.

(** An aware [datetime]: wall-clock reading and offset from UTC, both in
    seconds. *)
Record aware : Type := { wall : Z; utcoffset : Z }.

(** A time zone of the tz database: its name and its offset from UTC, in
    seconds, at each instant given in UTC. *)
Record timezone : Type := { zone : string; utcoffset_at : Z -> Z }.

Definition utc : timezone := {| zone := "UTC"; utcoffset_at := fun _ => 0 |}.

(** 0001-01-01 00:00:00 and 9999-12-31 23:59:59. *)
Definition min_wall : Z := -62135596800.
Definition max_wall : Z := 253402300799.

Definition year (d : aware) : Z := fst (fst (civil_from_days (wall d / 86400))).
Definition month (d : aware) : Z := snd (fst (civil_from_days (wall d / 86400))).
Definition day (d : aware) : Z := snd (civil_from_days (wall d / 86400)).
Definition hour (d : aware) : Z := (wall d mod 86400) / 3600.
Definition minute (d : aware) : Z := (wall d mod 3600) / 60.
Definition second (d : aware) : Z := wall d mod 60.

(** [datetime.utcfromtimestamp(n)]: a value that does not fit the
    64-bit [time_t] overflows, and one outside the years 1 to 9999 is
    rejected. *)
Definition utcfromtimestamp (n : Z) : Py.exn + naive :=
  if (n <? - 2 ^ 63) || (2 ^ 63 <=? n) then
    inl (Py.OverflowError "timestamp out of range for platform time_t")
  else if (min_wall <=? n) && (n <=? max_wall) then inr {| naive_wall := n |}
  else inl (Py.ValueError ("year out of range for timestamp " +:+ Fmt.str n)).

(** [d.replace(tzinfo=tz)]: the reading is kept and [tz] attached. The
    module attaches UTC only, whose offset is constant. *)
Definition replace_tzinfo (d : naive) (tz : timezone) : aware :=
  {| wall := naive_wall d; utcoffset := utcoffset_at tz (naive_wall d) |}.

(** [d.astimezone(tz)]: same instant, read in [tz]. *)
Definition astimezone (d : aware) (tz : timezone) : Py.exn + aware :=
  let instant := wall d - utcoffset d in
  let off := utcoffset_at tz instant in
  let w := instant + off in
  if (min_wall <=? w) && (w <=? max_wall) then inr {| wall := w; utcoffset := off |}
  else inl (Py.OverflowError "date value out of range").

(** One [strftime] directive, as the C library of the platform prints
    it: the year is not padded (a year below 1000 takes fewer than four
    digits), the other fields take two digits. Directives the module does
    not use are copied unchanged. *)
Definition directive (d : aware) (c : ascii) : string :=
  match c with
  | "Y"%char => Fmt.str (year d)
  | "m"%char => Fmt.zero_pad 2 (month d)
  | "d"%char => Fmt.zero_pad 2 (day d)
  | "H"%char => Fmt.zero_pad 2 (hour d)
  | "M"%char => Fmt.zero_pad 2 (minute d)
  | "S"%char => Fmt.zero_pad 2 (second d)
  | "%"%char => "%"
  | _ => String "%" (String c "")
  end.

(** [d.strftime(fmt)]. *)
Fixpoint strftime (d : aware) (fmt : string) : string :=
  match fmt with
  | String "%" (String c rest) => directive d c +:+ strftime d rest
  | String c rest => String c (strftime d rest)
  | EmptyString => ""
  end.

(** The UTC offset as [isoformat] prints it: [+HH:MM], with [:SS] when
    the offset is not a whole number of minutes. *)
Definition format_offset (off : Z) : string :=
  let sign := if off <? 0 then "-" else "+" in
  let a := Z.abs off in
  let hh := a / 3600 in
  let mm := (a mod 3600) / 60 in
  let ss := a mod 60 in
  sign +:+ Fmt.zero_pad 2 hh +:+ ":" +:+ Fmt.zero_pad 2 mm
  +:+ (if ss =? 0 then "" else ":" +:+ Fmt.zero_pad 2 ss).

(** [d.isoformat()] of an aware datetime without microseconds. *)
Definition isoformat (d : aware) : string :=
  Fmt.zero_pad 4 (year d) +:+ "-" +:+ Fmt.zero_pad 2 (month d) +:+ "-"
  +:+ Fmt.zero_pad 2 (day d) +:+ "T" +:+ Fmt.zero_pad 2 (hour d) +:+ ":"
  +:+ Fmt.zero_pad 2 (minute d) +:+ ":" +:+ Fmt.zero_pad 2 (second d)
  +:+ format_offset (utcoffset d).

End Datetime.

Module Babel.

(** A loaded locale, seen through the one pattern the module uses: the
    "long" date format applied to a year, a month and a day. *)
Record Locale : Type := { long_date : Z -> Z -> Z -> string }.

End Babel.

(* ===================================================================== *)
(** * The process environment *)
(* ===================================================================== *)

(** What the module reads from outside during one call:
    - [cwd], [path_exists] (on absolute paths): the file system;
    - [environ]: [os.environ];
    - [time]: the reading of [time.time()];
    - [Repo path]: [Repo(path, search_parent_directories=True).git], or
      the exception the constructor raises;
    - [zone_lookup]: the answer of Babel's [get_timezone] to a name, the
      zone or the exception raised (which exception depends on the
      library that holds the zones);
    - [parse_locale]: Babel's [Locale.parse] on an identifier, which
      raises for one it cannot parse or has no data for;
    - [LC_TIME]: Babel's default locale identifier, taken from the
      environment of the process. *)
Record World : Type := {
  cwd : string;
  path_exists : string -> bool;
  environ : gmap string string;
  time : Q;
  Repo : string -> Py.exn + Git;
  zone_lookup : string -> Py.exn + Datetime.timezone;
  parse_locale : string -> Py.exn + Babel.Locale;
  LC_TIME : string
}.

Definition starts_with_slash (p : string) : bool :=
  match p with
  | String "/" _ => true
  | _ => false
  end.

Fixpoint ends_with_slash (p : string) : bool :=
  match p with
  | EmptyString => false
  | String c EmptyString => Ascii.eqb c "/"
  | String _ p' => ends_with_slash p'
  end.

(** [os.path.join(a, p)]. *)
Definition os_path_join (a p : string) : string :=
  if starts_with_slash p then p
  else if ends_with_slash a then a +:+ p
  else a +:+ "/" +:+ p.

(** [os.path.exists(p)]: a relative path is resolved against the current
    working directory. *)
Definition os_path_exists (w : World) (p : string) : bool :=
  path_exists w (os_path_join (cwd w) p).

(** [babel.dates.get_timezone(zone)] for a string. The name UTC is known
    to every zone library; any other name is looked up. *)
Definition get_timezone (w : World) (zone : string) : Py.exn + Datetime.timezone :=
  if String.eqb zone "UTC" then inr Datetime.utc else zone_lookup w zone.

(** [Locale.parse(locale or LC_TIME)], the parse that [format_date]
    performs: an empty identifier stands for the default locale. *)
Definition Locale_parse (w : World) (locale : string) : Py.exn + Babel.Locale :=
  parse_locale w (if String.eqb locale "" then LC_TIME w else locale).

(** [babel.dates.format_date(d, format="long", locale=locale)]: the
    locale is parsed first, then the date part of [d] is rendered. *)
Definition format_date (w : World) (d : Datetime.aware) (locale : string)
  : Py.exn + string :=
  match Locale_parse w locale with
  | inl e => inl e
  | inr l => inr (Babel.long_date l (Datetime.year d) (Datetime.month d) (Datetime.day d))
  end.

(* ===================================================================== *)
(** * [util.py] *)
(* ===================================================================== *)

(** ** Log messages *)

Definition msg_no_repo_fallback : string :=
  "[git-revision-date-localized-plugin] Unable to find a git directory and/or git is not installed. Option 'fallback_to_build_date' set to 'true': Falling back to build date".

Definition msg_no_repo_error : string :=
  "[git-revision-date-localized-plugin] Unable to find a git directory and/or git is not installed. To ignore this error, set option 'fallback_to_build_date: true'".

Definition msg_gitlab : string :=
  "
                       Running on a gitlab runner might lead to wrong git revision dates
                       due to a shallow git fetch depth.
                       Make sure to set GIT_DEPTH to 1000 in your .gitlab-ci.yml file.
                       (see https://docs.gitlab.com/ee/user/project/pipelines/settings.html#git-shallow-clone).
                       ".

Definition msg_github : string :=
  "
                       Running on github actions might lead to wrong git revision dates
                       due to a shallow git fetch depth.
                       Try setting fetch-depth to 0 in your github action
                       (see https://github.com/actions/checkout).
                       ".

Definition msg_log_failed_fallback (path : string) : string :=
  "[git-revision-date-localized-plugin] Unable to read git logs of '" +:+ path +:+ "'. Is git log readable? Option 'fallback_to_build_date' set to 'true': Falling back to build date".

Definition msg_log_failed_error (path : string) : string :=
  "[git-revision-date-localized-plugin] Unable to read git logs of '" +:+ path +:+ "'.  To ignore this error, set option 'fallback_to_build_date: true'".

Definition msg_no_git_fallback : string :=
  "[git-revision-date-localized-plugin] Unable to perform command: 'git log'. Is git installed? Option 'fallback_to_build_date' set to 'true': Falling back to build date".

Definition msg_no_git_error : string :=
  "[git-revision-date-localized-plugin] Unable to perform command 'git log'. Is git installed? To ignore this error, set option 'fallback_to_build_date: true'".

Definition msg_no_logs (path : string) : string :=
  "[git-revision-date-localized-plugin] '" +:+ path +:+ "' has no git logs, using current timestamp".

(** ** Module-level helpers *)

(** [is_shallow_clone(repo)]: the argument is not used; the test is on
    the path [.git/shallow], relative to the working directory. *)
Definition is_shallow_clone (w : World) (repo : Git) : bool :=
  os_path_exists w ".git/shallow".

(** [commit_count(repo)]. *)
Definition commit_count (repo : Git) : M Z :=
  out <- git_for_each_ref repo ;;
  let refs := Py.split_sep "010" out in
  refs <- for_each (fun x => lift (Py.item0 (Py.split x))) refs ;;
  counts <- for_each (fun x => n <- git_rev_list repo x ;; lift (Py.int_str n)) refs ;;
  lift (Py.max counts).

(** ** Class [Util] *)

(** The attributes of an instance. [repo] is missing on an instance
    built in fallback mode. *)
Record Util : Type := { fallback_enabled : bool; repo : option Git }.

(** [Util.__init__(self, path, config)]; the result is the initialised
    instance. *)
Definition __init__ (w : World) (path : string) (config : gmap string Py.value)
  : M Util :=
  match Repo w path with
  | inl e =>
      if Py.get_truthy config "fallback_to_build_date" then
        logging_warning msg_no_repo_fallback ;;;
        ret {| fallback_enabled := true; repo := None |}
      else
        logging_error msg_no_repo_error ;;;
        raise e
  | inr git =>
      let self := {| fallback_enabled := false; repo := Some git |} in
      (if is_shallow_clone w git then
         n_commits <- commit_count git ;;
         when (Py.env_truthy (environ w) "GITLAB_CI" && (n_commits <? 50))
              (logging_warning msg_gitlab) ;;;
         when (Py.env_truthy (environ w) "GITHUB_ACTIONS" && (n_commits =? 1))
              (logging_warning msg_github)
       else ret tt) ;;;
      ret self
  end.

(** The argument [unix_timestamp] of [_date_formats] is the text printed
    by [git log] or the float read from the clock. *)
Inductive timestamp : Type :=
  | OfLog (s : string)
  | OfClock (x : Q).

(** [int(unix_timestamp)]. *)
Definition int_timestamp (t : timestamp) : Py.exn + Z :=
  match t with
  | OfLog s => Py.int_str s
  | OfClock x => inr (Py.int_float x)
  end.

Definition timeago_span (iso locale : string) : string :=
  "<span class='timeago' datetime='" +:+ iso +:+ "' locale='" +:+ locale
  +:+ "'></span>".

(** [Util._date_formats(unix_timestamp, locale, time_zone)]. *)
Definition _date_formats (w : World) (unix_timestamp : timestamp)
    (locale time_zone : string) : M (gmap string string) :=
  n <- lift (int_timestamp unix_timestamp) ;;
  utc_revision_date <- lift (Datetime.utcfromtimestamp n) ;;
  tz_utc <- lift (get_timezone w "UTC") ;;
  tz <- lift (get_timezone w time_zone) ;;
  loc_revision_date <-
    lift (Datetime.astimezone (Datetime.replace_tzinfo utc_revision_date tz_utc) tz) ;;
  date <- lift (format_date w loc_revision_date locale) ;;
  date' <- lift (format_date w loc_revision_date locale) ;;
  ret (<["date" := date]>
       (<["datetime" := date' +:+ " " +:+ Datetime.strftime loc_revision_date "%H:%M:%S"]>
       (<["iso_date" := Datetime.strftime loc_revision_date "%Y-%m-%d"]>
       (<["iso_datetime" := Datetime.strftime loc_revision_date "%Y-%m-%d %H:%M:%S"]>
       (<["timeago" := timeago_span (Datetime.isoformat loc_revision_date) locale]>
        ∅))))).

(** [self.repo.log(path, n=1, date="short", format="%at")]. *)
Definition self_repo_log (self : Util) (path : string) : M string :=
  match repo self with
  | Some git => git_log git path
  | None => raise (Py.AttributeError "repo")
  end.

(** [Util.get_revision_date_for_file(self, path, locale, time_zone,
    fallback_to_build_date)]. The first step yields the value of
    [unix_timestamp] after the [try] statement ([None] when nothing was
    assigned). *)
Definition get_revision_date_for_file (w : World) (self : Util) (path : string)
    (locale time_zone : string) (fallback_to_build_date : bool)
  : M (gmap string string) :=
  unix_timestamp <-
    try_except
      (if negb (fallback_enabled self) then
         out <- self_repo_log self path ;; ret (Some out)
       else ret None)
      (fun err =>
         match err with
         | Py.GitCommandError _ _ =>
             Some (if fallback_to_build_date then
                     logging_warning (msg_log_failed_fallback path) ;;; ret None
                   else
                     logging_error (msg_log_failed_error path) ;;; raise err)
         | Py.GitCommandNotFound =>
             Some (if fallback_to_build_date then
                     logging_warning msg_no_git_fallback ;;; ret None
                   else
                     logging_error msg_no_git_error ;;; raise err)
         | _ => None
         end) ;;
  unix_timestamp <-
    match unix_timestamp with
    | Some (String c s) => ret (OfLog (String c s))
    | _ =>
        when (negb (fallback_enabled self)) (logging_warning (msg_no_logs path)) ;;;
        ret (OfClock (time w))
    end ;;
  _date_formats w unix_timestamp locale time_zone.

(* ===================================================================== *)
(** * Vocabulary of the properties *)
(* ===================================================================== *)

(** An event list that holds git invocations only. *)
Definition only_ran (t : list event) : Prop :=
  Forall (fun ev => exists cmd, ev = Ran cmd) t.

(** An event list without git invocations. *)
Definition no_ran (t : list event) : Prop :=
  Forall (fun ev => forall cmd, ev <> Ran cmd) t.

(** The shallow-fetch depths that the comments of [__init__] give as the
    defaults of the two continuous-integration services. *)
Definition gitlab_default_depth : Z := 50.
Definition github_default_depth : Z := 1.

(** The last eight characters of a string. *)
Definition last8 (s : string) : string :=
  substring (String.length s - 8) 8 s.

(** The seconds that [datetime] can represent. *)
Definition in_range (n : Z) : Prop :=
  Datetime.min_wall <= n <= Datetime.max_wall.

(** The reading, in zone [z], of the instant [n] seconds after the
    epoch. *)
Definition local_time (n : Z) (z : Datetime.timezone) : Datetime.aware :=
  {| Datetime.wall := n + Datetime.utcoffset_at z n;
     Datetime.utcoffset := Datetime.utcoffset_at z n |}.

(** The five entries built for a local date-time by a loaded locale. *)
Definition formats (l : Babel.Locale) (d : Datetime.aware) (locale : string)
  : gmap string string :=
  let date := Babel.long_date l (Datetime.year d) (Datetime.month d) (Datetime.day d) in
  <["date" := date]>
  (<["datetime" := date +:+ " " +:+ Datetime.strftime d "%H:%M:%S"]>
  (<["iso_date" := Datetime.strftime d "%Y-%m-%d"]>
  (<["iso_datetime" := Datetime.strftime d "%Y-%m-%d %H:%M:%S"]>
  (<["timeago" := timeago_span (Datetime.isoformat d) locale]> ∅)))).

(** The timestamp that [get_revision_date_for_file] formats: the text
    printed by the history query when there is one, the clock reading
    otherwise. *)
Definition obtained_timestamp (w : World) (self : Util) (path : string) : timestamp :=
  if fallback_enabled self then OfClock (time w)
  else match repo self with
       | Some g =>
           match log g path with
           | inr (String c s) => OfLog (String c s)
           | _ => OfClock (time w)
           end
       | None => OfClock (time w)
       end.

(** The first half of [get_revision_date_for_file], up to the call of
    [_date_formats]: the history query with its handlers, then the choice
    of the timestamp. *)
Definition obtain_timestamp (w : World) (self : Util) (path : string)
    (fallback_to_build_date : bool) : M timestamp :=
  unix_timestamp <-
    try_except
      (if negb (fallback_enabled self) then
         out <- self_repo_log self path ;; ret (Some out)
       else ret None)
      (fun err =>
         match err with
         | Py.GitCommandError _ _ =>
             Some (if fallback_to_build_date then
                     logging_warning (msg_log_failed_fallback path) ;;; ret None
                   else
                     logging_error (msg_log_failed_error path) ;;; raise err)
         | Py.GitCommandNotFound =>
             Some (if fallback_to_build_date then
                     logging_warning msg_no_git_fallback ;;; ret None
                   else
                     logging_error msg_no_git_error ;;; raise err)
         | _ => None
         end) ;;
  match unix_timestamp with
  | Some (String c s) => ret (OfLog (String c s))
  | _ =>
      when (negb (fallback_enabled self)) (logging_warning (msg_no_logs path)) ;;;
      ret (OfClock (time w))
  end.

(** The text [git for-each-ref] prints: one line per reference, holding
    the object name, a space, the object type, a tab and the reference
    name; lines are separated by a newline. *)
Record reference : Type := {
  objectname : string;
  objecttype : string;
  refname : string
}.

Definition ref_line (r : reference) : string :=
  objectname r +:+ " " +:+ objecttype r +:+ String "009" (refname r).

Fixpoint join_lines (l : list string) : string :=
  match l with
  | [] => ""
  | [x] => x
  | x :: xs => x +:+ String "010" (join_lines xs)
  end.

Fixpoint all_chars (p : ascii -> bool) (s : string) : bool :=
  match s with
  | EmptyString => true
  | String c s' => p c && all_chars p s'
  end.

Definition is_digit (c : ascii) : bool :=
  match Py.digit_val c with Some _ => true | None => false end.

Definition no_space (s : string) : bool := all_chars (fun c => negb (Py.isspace c)) s.


(* ===================================================================== *)
(** * Sample environments *)
(* ===================================================================== *)

Module Sample.

Definition month_name (m : Z) : string :=
  match m with
  | 1 => "January" | 2 => "February" | 3 => "March" | 4 => "April"
  | 5 => "May" | 6 => "June" | 7 => "July" | 8 => "August"
  | 9 => "September" | 10 => "October" | 11 => "November" | _ => "December"
  end.

Definition en : Babel.Locale :=
  {| Babel.long_date := fun y m d =>
       month_name m +:+ " " +:+ Fmt.str d +:+ ", " +:+ Fmt.str y |}.

Definition kolkata : Datetime.timezone :=
  {| Datetime.zone := "Asia/Kolkata"; Datetime.utcoffset_at := fun _ => 19800 |}.

Definition refs : list reference :=
  [ {| objectname := "4f2a9c1"; objecttype := "commit"; refname := "refs/heads/main" |};
    {| objectname := "b81d07e"; objecttype := "commit"; refname := "refs/tags/v1" |};
    {| objectname := "0c3e55a"; objecttype := "commit"; refname := "refs/heads/dev" |} ].

Definition counts (x : string) : Z :=
  if String.eqb x "4f2a9c1" then 3 else if String.eqb x "b81d07e" then 1 else 7.

(** A repository with three references, whose first-parent histories
    hold 3, 1 and 7 commits. [index.md] has history, [new.md] has none,
    the query for [locked.md] fails, and the one for [signed.md] prints a
    signature line before the timestamp. *)
Definition repo3 (dir : string) : Git :=
  {| git_dir := dir;
     for_each_ref := inr (join_lines (map ref_line refs));
     rev_list := fun x => inr (Fmt.str (counts x));
     log := fun p =>
       if String.eqb p "index.md" then inr "1690000000"
       else if String.eqb p "locked.md" then inl (CommandFailed 128 "fatal: unable to read")
       else if String.eqb p "signed.md" then
         inr "gpg: Signature made Sat Jul 22 04:26:40 2023 UTC
1690000000"
       else inr "" |}.

(** A repository with a single reference and a single commit. *)
Definition repo1 (dir : string) : Git :=
  {| git_dir := dir;
     for_each_ref := inr "4f2a9c1 commit	refs/remotes/origin/main";
     rev_list := fun _ => inr "1";
     log := fun _ => inr "1690000000" |}.

(** A repository without any reference (for instance a fresh
    [git init], or a checkout of a fetched commit). *)
Definition repo0 (dir : string) : Git :=
  {| git_dir := dir;
     for_each_ref := inr "";
     rev_list := fun _ => inl (CommandFailed 128 "fatal: bad revision");
     log := fun _ => inr "" |}.

Fixpoint assoc {A} (l : list (string * A)) (k : string) : option A :=
  match l with
  | [] => None
  | (k', v) :: l' => if String.eqb k k' then Some v else assoc l' k
  end.

(** A process started in [dir], with the listed files, environment
    variables and repositories (by the path given to [Repo]). *)
Definition world (dir : string) (files : list string)
    (env : list (string * string)) (repos : list (string * Git)) : World :=
  {| cwd := dir;
     path_exists := fun p => existsb (String.eqb p) files;
     environ := list_to_map env;
     time := 1700000000.5;
     Repo := fun p =>
       match assoc repos p with
       | Some g => inr g
       | None => inl (Py.InvalidGitRepositoryError p)
       end;
     zone_lookup := fun z =>
       if String.eqb z "Asia/Kolkata" then inr kolkata
       else inl (Py.LookupError ("Unknown timezone " +:+ z));
     parse_locale := fun l =>
       if String.eqb l "en" then inr en
       else if String.eqb l "" then inl (Py.ValueError "expected only letters, got ''")
       else inl (Py.UnknownLocaleError l);
     LC_TIME := "en" |}.

(** No repository anywhere. *)
Definition bare : World := world "/srv/site" [] [] [].

(** A full clone in the working directory. *)
Definition full : World :=
  world "/srv/site" [] [("GITLAB_CI", "true"); ("GITHUB_ACTIONS", "true")]
        [("/srv/site/docs", repo3 "/srv/site/.git")].

(** A shallow clone on a GitLab runner. *)
Definition gitlab : World :=
  world "/builds/site" ["/builds/site/.git/shallow"] [("GITLAB_CI", "true")]
        [("/builds/site/docs", repo3 "/builds/site/.git")].

(** A shallow clone of depth 1 in a GitHub action. *)
Definition github : World :=
  world "/work/site" ["/work/site/.git/shallow"] [("GITHUB_ACTIONS", "true")]
        [("/work/site/docs", repo1 "/work/site/.git")].

(** A shallow clone on a runner whose indicator variable is set to the
    empty string. *)
Definition gitlab_empty : World :=
  world "/builds/site" ["/builds/site/.git/shallow"] [("GITLAB_CI", "")]
        [("/builds/site/docs", repo3 "/builds/site/.git")].

(** A shallow clone that has no reference. *)
Definition detached : World :=
  world "/work/site" ["/work/site/.git/shallow"] [("GITHUB_ACTIONS", "true")]
        [("/work/site/docs", repo0 "/work/site/.git")].

(** The process runs in a shallow clone, and the documentation is built
    from another repository, a full clone. *)
Definition elsewhere : World :=
  world "/builds/tools" ["/builds/tools/.git/shallow"] [("GITLAB_CI", "true")]
        [("/srv/site/docs", repo3 "/srv/site/.git")].

(** The process runs outside the repository, which is a shallow clone. *)
Definition outside : World :=
  world "/home/ci" ["/srv/site/.git/shallow"] [("GITLAB_CI", "true")]
        [("/srv/site/docs", repo3 "/srv/site/.git")].

Definition bound (g : Git) : Util := {| fallback_enabled := false; repo := Some g |}.
Definition unbound : Util := {| fallback_enabled := true; repo := None |}.

Definition fallback_on : gmap string Py.value :=
  {[ "fallback_to_build_date" := Py.Bool true ]}.

End Sample.

(* ===================================================================== *)
(** * Further vocabulary *)
(* ===================================================================== *)

(** The first word of every line, when every line has one. *)
Fixpoint first_words (lines : list string) : option (list string) :=
  match lines with
  | [] => Some []
  | l :: ls =>
      match Py.split l with
      | [] => None
      | x :: _ =>
          match first_words ls with
          | Some xs => Some (x :: xs)
          | None => None
          end
      end
  end.

(** What [commit_count] reads for the object [x]: the integer printed by
    [rev-list], or the exception of the command or of [int]. *)
Definition read_count (g : Git) (x : string) : Py.exn + Z :=
  match rev_list g x with
  | inl f => inl (git_exn f)
  | inr s => Py.int_str s
  end.

(** A git invocation, as opposed to a log record. *)
Definition is_ran (ev : event) : bool :=
  match ev with
  | Ran _ => true
  | Logged _ _ => false
  end.

(** The same process at another reading of the clock. *)
Definition with_time (w : World) (t : Q) : World :=
  {| cwd := cwd w;
     path_exists := path_exists w;
     environ := environ w;
     time := t;
     Repo := Repo w;
     zone_lookup := zone_lookup w;
     parse_locale := parse_locale w;
     LC_TIME := LC_TIME w |}.

(** [f] holds of [k], ..., [k + n - 1]. *)
Fixpoint all_from (f : Z -> bool) (k : Z) (n : nat) : bool :=
  match n with
  | O => true
  | S n' => f k && all_from f (k + 1) n'
  end.

(** [Datetime.civil_from_days] within a 400-year cycle: the year within
    the cycle, the month and the day of the day number [doe] of the
    cycle (cycles start on a 1st of March). *)
Definition civil_of_doe (doe : Z) : Z * Z * Z :=
  let yoe := (doe - doe / 1460 + doe / 36524 - doe / 146096) / 365 in
  let doy := doe - (365 * yoe + yoe / 4 - yoe / 100) in
  let mp := (5 * doy + 2) / 153 in
  let d := doy - (153 * mp + 2) / 5 + 1 in
  let m := if mp <? 10 then mp + 3 else mp - 9 in
  ((if m <=? 2 then yoe + 1 else yoe), m, d).

(** The entries of a mapping other than [timeago]. *)
Definition date_keys : list string := ["date"; "datetime"; "iso_date"; "iso_datetime"].

(** ** More samples *)

Module Sample2.

(** The repository [Sample.repo3] after the object of its second
    reference was lost: counting from it fails. *)
Definition repo_lost (dir : string) : Git :=
  {| git_dir := dir;
     for_each_ref := for_each_ref (Sample.repo3 dir);
     rev_list := fun x =>
       if String.eqb x "b81d07e" then inl (CommandFailed 128 "fatal: bad object b81d07e")
       else rev_list (Sample.repo3 dir) x;
     log := log (Sample.repo3 dir) |}.

(** A repository whose list of references ends with a newline. *)
Definition repo_newline (dir : string) : Git :=
  {| git_dir := dir;
     for_each_ref := inr "4f2a9c1 commit	refs/heads/main
";
     rev_list := fun _ => inr "3";
     log := fun _ => inr "1690000000" |}.

End Sample2.

(* ===================================================================== *)
(** * Basic facts about the effect layer *)
(* ===================================================================== *)

Lemma bind_ret_l {A B} (x : A) (k : A -> M B) : bind (ret x) k = k x.
Proof. unfold bind, ret. destruct (k x) as [t r]. reflexivity. Qed.

Lemma bind_raise {A B} (e : Py.exn) (k : A -> M B) : bind (raise e) k = raise e.
Proof. reflexivity. Qed.

Lemma bind_lift_inr {A B} (x : A) (k : A -> M B) : bind (lift (inr x)) k = k x.
Proof. apply bind_ret_l. Qed.

Lemma bind_lift_inl {A B} (e : Py.exn) (k : A -> M B) :
  bind (lift (inl e)) k = ([], inl e).
Proof. reflexivity. Qed.

Lemma bind_emit {B} (ev : event) (k : unit -> M B) :
  bind (emit ev) k = (ev :: trace (k tt), outcome (k tt)).
Proof. unfold bind, emit, trace, outcome. destruct (k tt) as [t r]. reflexivity. Qed.

Lemma trace_bind {A B} (m : M A) (k : A -> M B) :
  trace (bind m k) =
  trace m ++ match outcome m with inr x => trace (k x) | inl _ => [] end.
Proof.
  destruct m as [t [e | x]]; unfold bind, trace, outcome; simpl.
  - symmetry. apply app_nil_r.
  - destruct (k x) as [t' r]. reflexivity.
Qed.

Lemma outcome_bind {A B} (m : M A) (k : A -> M B) :
  outcome (bind m k) =
  match outcome m with inr x => outcome (k x) | inl e => inl e end.
Proof.
  destruct m as [t [e | x]]; unfold bind, outcome; simpl.
  - reflexivity.
  - destruct (k x) as [t' r]. reflexivity.
Qed.

Lemma M_eta {A} (m : M A) : m = (trace m, outcome m).
Proof. destruct m. reflexivity. Qed.

Lemma only_ran_app t1 t2 : only_ran t1 -> only_ran t2 -> only_ran (t1 ++ t2).
Proof. unfold only_ran. intros H1 H2. apply Forall_app. split; assumption. Qed.

Lemma only_ran_not_logged t lvl msg : only_ran t -> ~ In (Logged lvl msg) t.
Proof.
  unfold only_ran. intros H Hin. rewrite Forall_forall in H.
  apply list_elem_of_In in Hin. destruct (H _ Hin) as [cmd Hcmd]. discriminate.
Qed.

Lemma run_trace cmd r : trace (run cmd r) = [Ran cmd].
Proof. destruct r; reflexivity. Qed.

Lemma run_outcome cmd r :
  outcome (run cmd r) = match r with inl f => inl (git_exn f) | inr out => inr out end.
Proof. destruct r; reflexivity. Qed.

Lemma for_each_only_ran {A B} (f : A -> M B) (l : list A) :
  (forall x, only_ran (trace (f x))) -> only_ran (trace (for_each f l)).
Proof.
  intros Hf. induction l as [| x xs IH]; simpl.
  - constructor.
  - rewrite trace_bind. apply only_ran_app; [apply Hf |].
    destruct (outcome (f x)); [constructor |].
    rewrite trace_bind. apply only_ran_app; [exact IH |].
    destruct (outcome (for_each f xs)); constructor.
Qed.

(** [commit_count] logs nothing: its trace is made of git invocations. *)
Lemma commit_count_only_ran (g : Git) : only_ran (trace (commit_count g)).
Proof.
  unfold commit_count, git_for_each_ref.
  rewrite trace_bind, run_trace. apply only_ran_app.
  { repeat constructor. exists CmdForEachRef. reflexivity. }
  destruct (outcome _); [constructor |].
  rewrite trace_bind. apply only_ran_app.
  { apply for_each_only_ran. intros x. constructor. }
  destruct (outcome _); [constructor |].
  rewrite trace_bind. apply only_ran_app.
  { apply for_each_only_ran. intros x. unfold git_rev_list.
    rewrite trace_bind, run_trace. apply only_ran_app.
    - repeat constructor. eexists. reflexivity.
    - destruct (outcome _); constructor. }
  destruct (outcome _); constructor.
Qed.

Lemma bind_lift {A B} (r : Py.exn + A) (k : A -> M B) :
  bind (lift r) k = match r with inr x => k x | inl e => ([], inl e) end.
Proof. destruct r; [reflexivity | apply bind_ret_l]. Qed.

(** [_date_formats] performs no observable action. *)
Lemma date_formats_trace w ts locale tz : trace (_date_formats w ts locale tz) = [].
Proof.
  unfold _date_formats.
  repeat (rewrite bind_lift;
          match goal with
          | |- context [match ?r with inr _ => _ | inl _ => _ end] =>
              destruct r; [reflexivity |]
          end).
  reflexivity.
Qed.

(* ===================================================================== *)
(** * Strings and decimal digits *)
(* ===================================================================== *)

Lemma string_app_cons (x : ascii) (a b : string) :
  String x a +:+ b = String x (a +:+ b).
Proof. reflexivity. Qed.

Lemma string_app_nil_l (b : string) : "" +:+ b = b.
Proof. reflexivity. Qed.

Lemma string_app_assoc (a b c : string) : (a +:+ b) +:+ c = a +:+ (b +:+ c).
Proof.
  induction a as [| x a IH]; [reflexivity |].
  rewrite !string_app_cons, IH. reflexivity.
Qed.


Lemma string_app_length (a b : string) :
  String.length (a +:+ b) = (String.length a + String.length b)%nat.
Proof.
  induction a as [| x a IH]; [reflexivity |].
  rewrite string_app_cons. simpl. rewrite IH. reflexivity.
Qed.

Lemma substring_all (s : string) : substring 0 (String.length s) s = s.
Proof. induction s as [| x s IH]; simpl; [reflexivity | f_equal; exact IH]. Qed.

Lemma substring_skip (a b : string) (n : nat) :
  substring (String.length a) n (a +:+ b) = substring 0 n b.
Proof.
  induction a as [| x a IH]; [reflexivity |].
  rewrite string_app_cons. simpl. exact IH.
Qed.

(** A string that ends with eight characters gives them back. *)
Lemma last8_app (a b : string) : String.length b = 8%nat -> last8 (a +:+ b) = b.
Proof.
  intros Hb. unfold last8. rewrite string_app_length, Hb.
  replace (String.length a + 8 - 8)%nat with (String.length a) by lia.
  rewrite substring_skip, <- Hb. apply substring_all.
Qed.

(** Two-digit fields. *)
Lemma zero_pad2_length (n : Z) :
  0 <= n < 100 -> String.length (Fmt.zero_pad 2 n) = 2%nat.
Proof.
  intros Hn.
  assert (Hk : exists k : nat, (k < 100)%nat /\ n = Z.of_nat k).
  { exists (Z.to_nat n). split; lia. }
  destruct Hk as (k & Hk & ->). clear Hn.
  do 100 (destruct k as [| k]; [vm_compute; reflexivity |]).
  lia.
Qed.

(** ** [str.split] *)










(** ** [int] of a decimal numeral *)

Lemma digit_val_digit_char (d : Z) :
  0 <= d < 10 -> Py.digit_val (Fmt.digit_char d) = Some d.
Proof.
  intros Hd.
  assert (H : d = 0 \/ d = 1 \/ d = 2 \/ d = 3 \/ d = 4 \/ d = 5 \/ d = 6 \/
              d = 7 \/ d = 8 \/ d = 9) by lia.
  repeat (destruct H as [-> | H]; [reflexivity |]). subst. reflexivity.
Qed.

Lemma digit_not_space (c : ascii) : is_digit c = true -> Py.isspace c = false.
Proof.
  destruct c as [[] [] [] [] [] [] [] []]; intros H; try reflexivity;
    vm_compute in H; discriminate H.
Qed.

Lemma all_digits_no_space (s : string) : all_chars is_digit s = true -> no_space s = true.
Proof.
  unfold no_space. induction s as [| c s IH]; [reflexivity |].
  simpl. rewrite !andb_true_iff. intros [Hc Hs].
  split; [rewrite (digit_not_space c Hc); reflexivity | exact (IH Hs)].
Qed.

Lemma c_isspace_isspace (c : ascii) : Py.isspace c = false -> Py.c_isspace c = false.
Proof.
  destruct c as [[] [] [] [] [] [] [] []]; intros H; try reflexivity; discriminate H.
Qed.

Lemma rstrip_no_space (s : string) : no_space s = true -> Py.rstrip s = s.
Proof.
  unfold no_space. induction s as [| c s IH]; [reflexivity |].
  simpl. rewrite andb_true_iff. intros [Hc Hs]. rewrite (IH Hs).
  destruct s; [| reflexivity].
  rewrite c_isspace_isspace; [reflexivity |].
  destruct (Py.isspace c); [discriminate Hc | reflexivity].
Qed.

Lemma strip_no_space (s : string) : no_space s = true -> Py.strip s = s.
Proof.
  intros Hs. unfold Py.strip.
  assert (Hl : Py.lstrip s = s).
  { destruct s as [| c s]; [reflexivity |].
    unfold no_space in Hs. simpl in Hs. apply andb_true_iff in Hs as [Hc _].
    simpl. rewrite c_isspace_isspace; [reflexivity |].
    destruct (Py.isspace c); [discriminate Hc | reflexivity]. }
  rewrite Hl. apply rstrip_no_space, Hs.
Qed.

(** On a string of digits, [int] is the reading of the digits. *)
Lemma int_str_digits (s : string) (n : Z) :
  all_chars is_digit s = true ->
  Py.int_digits 0 false s = Some n ->
  Py.int_str s = inr n.
Proof.
  intros Hs Hn. unfold Py.int_str.
  rewrite (strip_no_space s (all_digits_no_space s Hs)).
  destruct s as [| c r]; [simpl in Hn; discriminate Hn |].
  simpl in Hs. apply andb_true_iff in Hs as [Hc _].
  destruct c as [[] [] [] [] [] [] [] []];
    try (vm_compute in Hc; discriminate Hc); rewrite Hn; reflexivity.
Qed.

Lemma dec_loop_all_digits (fuel : nat) (n : Z) (acc : string) :
  0 <= n -> all_chars is_digit acc = true ->
  all_chars is_digit (Fmt.dec_loop fuel n acc) = true.
Proof.
  revert n acc. induction fuel as [| fuel IH]; intros n acc Hn Hacc; [exact Hacc |].
  simpl.
  assert (Hd : all_chars is_digit (String (Fmt.digit_char (n mod 10)) acc) = true).
  { simpl. unfold is_digit at 1.
    rewrite digit_val_digit_char by (apply Z.mod_pos_bound; lia). exact Hacc. }
  destruct (n <? 10); [exact Hd |].
  apply IH; [apply Z.div_pos; lia | exact Hd].
Qed.

(** Reading the digits written for [n] gives [n]. *)
Lemma int_digits_dec_loop (fuel : nat) (n : Z) (acc : string) (b : bool) :
  0 <= n < 2 ^ Z.of_nat (S fuel) ->
  Py.int_digits 0 b (Fmt.dec_loop (S fuel) n acc) = Py.int_digits n true acc.
Proof.
  revert n acc. induction fuel as [| fuel IH]; intros n acc Hn.
  - assert (Hlt : (n <? 10) = true) by (apply Z.ltb_lt; change (2 ^ Z.of_nat 1) with 2 in Hn; lia).
    simpl. rewrite Hlt. simpl.
    rewrite digit_val_digit_char by (apply Z.mod_pos_bound; lia).
    rewrite Z.mod_small by (apply Z.ltb_lt in Hlt; lia). reflexivity.
  - change (Fmt.dec_loop (S (S fuel)) n acc)
      with (if n <? 10 then String (Fmt.digit_char (n mod 10)) acc
            else Fmt.dec_loop (S fuel) (n / 10) (String (Fmt.digit_char (n mod 10)) acc)).
    destruct (n <? 10) eqn:Hlt.
    + apply Z.ltb_lt in Hlt. simpl.
      rewrite digit_val_digit_char by (apply Z.mod_pos_bound; lia).
      rewrite Z.mod_small by lia. reflexivity.
    + apply Z.ltb_ge in Hlt.
      rewrite IH.
      * simpl. rewrite digit_val_digit_char by (apply Z.mod_pos_bound; lia).
        rewrite <- Z.div_mod by lia. reflexivity.
      * split; [apply Z.div_pos; lia |].
        apply Z.div_lt_upper_bound; [lia |].
        rewrite Nat2Z.inj_succ, Z.pow_succ_r in Hn by lia. lia.
Qed.

(** [int(str(n))] is [n], for a count. *)
Lemma int_str_of_str (n : Z) : 0 <= n -> Py.int_str (Fmt.str n) = inr n.
Proof.
  intros Hn. unfold Fmt.str.
  destruct (n <? 0) eqn:Hneg; [apply Z.ltb_lt in Hneg; lia |].
  unfold Fmt.dec. apply int_str_digits.
  - apply dec_loop_all_digits; [exact Hn | reflexivity].
  - rewrite int_digits_dec_loop; [reflexivity |].
    split; [exact Hn |].
    destruct (Z.eq_dec n 0) as [-> | Hnz]; [reflexivity |].
    rewrite Nat2Z.inj_succ, Z2Nat.id by apply Z.log2_nonneg.
    apply Z.log2_spec. lia.
Qed.

(** ** [max] *)

Lemma fold_left_max_spec (l : list Z) (x : Z) :
  let m := fold_left Z.max l x in
  (m = x \/ In m l) /\ x <= m /\ Forall (fun c => c <= m) l.
Proof.
  revert x. induction l as [| y l IH]; intros x; simpl.
  - split; [left; reflexivity |]. split; [lia | constructor].
  - destruct (IH (Z.max x y)) as (Hin & Hle & Hall).
    split; [| split].
    + destruct Hin as [Heq | Hin]; [| right; right; exact Hin].
      rewrite Heq. destruct (Z.max_spec x y) as [[_ ->] | [_ ->]]; auto.
    + lia.
    + constructor; [lia | exact Hall].
Qed.

Lemma max_spec (l : list Z) :
  l <> [] ->
  exists m, Py.max l = inr m /\ In m l /\ Forall (fun c => c <= m) l.
Proof.
  destruct l as [| x l]; [congruence |]. intros _.
  exists (fold_left Z.max l x). split; [reflexivity |].
  destruct (fold_left_max_spec l x) as (Hin & Hle & Hall).
  split.
  - destruct Hin as [-> | Hin]; [left; reflexivity | right; exact Hin].
  - constructor; assumption.
Qed.

(* ===================================================================== *)
(** * Construction: locating the repository *)
(* ===================================================================== *)

(** C1. When the repository cannot be located (the constructor of the
    repository raises, whatever the reason: no repository, no git),
    [__init__] logs an error and raises that same exception, returning no
    instance, if the option [fallback_to_build_date] is not enabled; if
    it is enabled, [__init__] logs a warning and returns an instance in
    fallback-only mode, without a repository. *)
Theorem init_repository_not_found :
  forall (w : World) (path : string) (config : gmap string Py.value) (e : Py.exn),
    Repo w path = inl e ->
    (Py.get_truthy config "fallback_to_build_date" = false ->
     __init__ w path config = ([Logged ERROR msg_no_repo_error], inl e)) /\
    (Py.get_truthy config "fallback_to_build_date" = true ->
     __init__ w path config =
       ([Logged WARNING msg_no_repo_fallback],
        inr {| fallback_enabled := true; repo := None |})).
Proof.
  intros w path config e Hrepo. unfold __init__. rewrite Hrepo.
  split; intros Hflag; rewrite Hflag; reflexivity.
Qed.

Lemma init_repository_not_found_witness :
  Repo Sample.bare "/srv/site/docs" = inl (Py.InvalidGitRepositoryError "/srv/site/docs") /\
  __init__ Sample.bare "/srv/site/docs" ∅ =
    ([Logged ERROR msg_no_repo_error],
     inl (Py.InvalidGitRepositoryError "/srv/site/docs")) /\
  __init__ Sample.bare "/srv/site/docs" Sample.fallback_on =
    ([Logged WARNING msg_no_repo_fallback], inr Sample.unbound).
Proof.
  pose proof (init_repository_not_found Sample.bare "/srv/site/docs" ∅
                (Py.InvalidGitRepositoryError "/srv/site/docs") eq_refl) as [H1 _].
  pose proof (init_repository_not_found Sample.bare "/srv/site/docs" Sample.fallback_on
                (Py.InvalidGitRepositoryError "/srv/site/docs") eq_refl) as [_ H2].
  split; [reflexivity |].
  split; [apply H1; reflexivity | apply H2; reflexivity].
Defined.

(** An instance returned by [__init__] is in fallback-only mode or holds
    a repository handle. *)
Lemma init_instance_invariant w path config self :
  outcome (__init__ w path config) = inr self ->
  (fallback_enabled self = true /\ repo self = None /\ exists e, Repo w path = inl e) \/
  (fallback_enabled self = false /\ exists g, repo self = Some g /\ Repo w path = inr g).
Proof.
  unfold __init__. destruct (Repo w path) as [e | g].
  - destruct (Py.get_truthy config "fallback_to_build_date"); simpl.
    + intros [= <-]. left. simpl. eauto.
    + discriminate.
  - rewrite outcome_bind.
    destruct (outcome _); [discriminate |]. simpl.
    intros [= <-]. right. simpl. eauto.
Qed.

(* ===================================================================== *)
(** * Shallow-clone detection *)
(* ===================================================================== *)

(** C10. [is_shallow_clone] does not look at its argument: two handles
    give the same answer in the same process state, and the answer is
    whether [.git/shallow] exists under the working directory. The
    metadata directory of the repository plays no part: the answer can be
    negative for a repository that holds the marker, and positive for one
    that does not. *)
Theorem is_shallow_clone_ignores_repository :
  (forall (w : World) (r1 r2 : Git), is_shallow_clone w r1 = is_shallow_clone w r2) /\
  (forall (w : World) (r : Git),
     is_shallow_clone w r = path_exists w (os_path_join (cwd w) ".git/shallow")) /\
  (exists (w : World) (r : Git),
     path_exists w (os_path_join (git_dir r) "shallow") = true /\
     is_shallow_clone w r = false) /\
  (exists (w : World) (r : Git),
     path_exists w (os_path_join (git_dir r) "shallow") = false /\
     is_shallow_clone w r = true).
Proof.
  split; [reflexivity |]. split; [reflexivity |]. split.
  - exists Sample.outside, (Sample.repo3 "/srv/site/.git"). split; reflexivity.
  - exists Sample.elsewhere, (Sample.repo3 "/srv/site/.git"). split; reflexivity.
Qed.

(** Without [.git/shallow] under the working directory, construction
    runs no git command and logs nothing. *)
Lemma init_not_shallow w path config g :
  Repo w path = inr g ->
  is_shallow_clone w g = false ->
  __init__ w path config = ([], inr {| fallback_enabled := false; repo := Some g |}).
Proof.
  intros Hrepo Hsh. unfold __init__. rewrite Hrepo, Hsh. reflexivity.
Qed.

(** In a shallow clone, an error raised while counting commits leaves
    [__init__]. *)
Lemma init_commit_count_raises w path config g e :
  Repo w path = inr g ->
  is_shallow_clone w g = true ->
  outcome (commit_count g) = inl e ->
  outcome (__init__ w path config) = inl e.
Proof.
  intros Hrepo Hsh Hcc. unfold __init__. rewrite Hrepo, Hsh.
  rewrite !outcome_bind, Hcc. reflexivity.
Qed.

(** C7, at a shallow clone without references: [for-each-ref] prints
    nothing, [commit_count] fails on the first (empty) line with an
    [IndexError], and the error leaves [__init__]: no instance is built. *)
Theorem init_shallow_without_refs_raises :
  Repo Sample.detached "/work/site/docs" = inr (Sample.repo0 "/work/site/.git") /\
  __init__ Sample.detached "/work/site/docs" ∅ =
    ([Ran CmdForEachRef], inl Py.IndexError).
Proof. split; reflexivity. Qed.

(** C8, at a full clone built from a process whose working directory is
    a shallow clone of something else: the metadata directory of the
    repository holds no marker, and the GitLab warning is logged. *)
Theorem init_warns_without_marker_in_repository :
  Repo Sample.elsewhere "/srv/site/docs" = inr (Sample.repo3 "/srv/site/.git") /\
  path_exists Sample.elsewhere
    (os_path_join (git_dir (Sample.repo3 "/srv/site/.git")) "shallow") = false /\
  In (Logged WARNING msg_gitlab)
     (trace (__init__ Sample.elsewhere "/srv/site/docs" ∅)).
Proof.
  split; [reflexivity |]. split; [reflexivity |].
  vm_compute. do 4 right. left. reflexivity.
Qed.

(** ** Advisory warnings *)

Lemma msg_gitlab_neq_github : msg_gitlab <> msg_github.
Proof. apply String.eqb_neq. reflexivity. Qed.

Lemma Logged_inj lvl lvl' msg msg' : Logged lvl msg = Logged lvl' msg' -> msg = msg'.
Proof. intros [= _ H]. exact H. Qed.

(** The events of a construction that located a shallow clone: the git
    commands of [commit_count], then, if the count was obtained, the
    warnings selected by the environment and the count. *)
Lemma init_shallow_trace w path config g :
  Repo w path = inr g ->
  is_shallow_clone w g = true ->
  trace (__init__ w path config) =
  trace (commit_count g) ++
  match outcome (commit_count g) with
  | inr n =>
      (if Py.env_truthy (environ w) "GITLAB_CI" && (n <? 50)
       then [Logged WARNING msg_gitlab] else []) ++
      (if Py.env_truthy (environ w) "GITHUB_ACTIONS" && (n =? 1)
       then [Logged WARNING msg_github] else [])
  | inl _ => []
  end.
Proof.
  intros Hrepo Hsh. unfold __init__. rewrite Hrepo, Hsh.
  rewrite trace_bind, trace_bind, outcome_bind.
  destruct (outcome (commit_count g)) as [e | n].
  - simpl. rewrite !app_nil_r. reflexivity.
  - rewrite trace_bind, outcome_bind.
    destruct (Py.env_truthy (environ w) "GITLAB_CI" && (n <? 50));
      destruct (Py.env_truthy (environ w) "GITHUB_ACTIONS" && (n =? 1));
      simpl; rewrite ?app_nil_r; reflexivity.
Qed.

(** C6, as the code has it. After the repository was located, the
    GitLab warning is logged exactly when [.git/shallow] exists under the
    working directory, [GITLAB_CI] is set to a non-empty value, and the
    commit count was obtained and is below 50; the GitHub warning is
    logged exactly when [.git/shallow] exists, [GITHUB_ACTIONS] is set to
    a non-empty value, and the commit count was obtained and equals 1. *)
Theorem init_ci_warnings :
  forall (w : World) (path : string) (config : gmap string Py.value) (g : Git),
    Repo w path = inr g ->
    (In (Logged WARNING msg_gitlab) (trace (__init__ w path config)) <->
       is_shallow_clone w g = true /\
       Py.env_truthy (environ w) "GITLAB_CI" = true /\
       exists n, outcome (commit_count g) = inr n /\ n < gitlab_default_depth) /\
    (In (Logged WARNING msg_github) (trace (__init__ w path config)) <->
       is_shallow_clone w g = true /\
       Py.env_truthy (environ w) "GITHUB_ACTIONS" = true /\
       exists n, outcome (commit_count g) = inr n /\ n = github_default_depth).
Proof.
  intros w path config g Hrepo.
  unfold gitlab_default_depth, github_default_depth.
  destruct (is_shallow_clone w g) eqn:Hsh.
  2:{ rewrite (init_not_shallow w path config g Hrepo Hsh). simpl.
      split; (split; [intros [] | intros [? _]; discriminate]). }
  rewrite (init_shallow_trace w path config g Hrepo Hsh).
  pose proof (commit_count_only_ran g) as Hran.
  destruct (outcome (commit_count g)) as [e | n].
  { rewrite app_nil_r.
    split; (split; [intros Hin; exfalso; exact (only_ran_not_logged _ _ _ Hran Hin)
                   | intros (_ & _ & n & Hn & _); discriminate]). }
  split.
  - rewrite !in_app_iff. split.
    + intros [Hin | [Hin | Hin]].
      * exfalso. exact (only_ran_not_logged _ _ _ Hran Hin).
      * destruct (Py.env_truthy (environ w) "GITLAB_CI") eqn:Henv; simpl in Hin;
          [| destruct Hin].
        destruct (n <? 50) eqn:Hn; [| destruct Hin].
        apply Z.ltb_lt in Hn. split; [reflexivity |]. split; [reflexivity |].
        exists n. split; [reflexivity | exact Hn].
      * destruct (_ && _) in Hin; [| destruct Hin].
        destruct Hin as [Heq | []]. apply Logged_inj in Heq.
        exfalso. apply msg_gitlab_neq_github. symmetry. exact Heq.
    + intros (_ & Henv & n' & [= <-] & Hn). right. left.
      rewrite Henv. apply Z.ltb_lt in Hn. rewrite Hn. left. reflexivity.
  - rewrite !in_app_iff. split.
    + intros [Hin | [Hin | Hin]].
      * exfalso. exact (only_ran_not_logged _ _ _ Hran Hin).
      * destruct (_ && _) in Hin; [| destruct Hin].
        destruct Hin as [Heq | []]. apply Logged_inj in Heq.
        exfalso. apply msg_gitlab_neq_github. exact Heq.
      * destruct (Py.env_truthy (environ w) "GITHUB_ACTIONS") eqn:Henv; simpl in Hin;
          [| destruct Hin].
        destruct (n =? 1) eqn:Hn; [| destruct Hin].
        apply Z.eqb_eq in Hn. split; [reflexivity |]. split; [reflexivity |].
        exists n. split; [reflexivity | exact Hn].
    + intros (_ & Henv & n' & [= <-] & Hn). right. right.
      rewrite Henv. apply Z.eqb_eq in Hn. rewrite Hn. left. reflexivity.
Qed.

Lemma init_ci_warnings_witness :
  Repo Sample.gitlab "/builds/site/docs" = inr (Sample.repo3 "/builds/site/.git") /\
  In (Logged WARNING msg_gitlab) (trace (__init__ Sample.gitlab "/builds/site/docs" ∅)) /\
  ~ In (Logged WARNING msg_github) (trace (__init__ Sample.gitlab "/builds/site/docs" ∅)).
Proof.
  pose proof (init_ci_warnings Sample.gitlab "/builds/site/docs" ∅
                (Sample.repo3 "/builds/site/.git") eq_refl) as [Hlab Hhub].
  split; [reflexivity |]. split.
  - apply Hlab. split; [reflexivity |]. split; [reflexivity |].
    exists 7. split; [reflexivity | reflexivity].
  - intros Hin. apply Hhub in Hin. destruct Hin as (_ & Henv & _).
    discriminate Henv.
Defined.

(** C6, as stated, fails twice. In a GitHub action on a shallow clone
    whose commit count is 1, the warning is logged although 1 is not
    below the default depth 1; on a GitLab runner whose indicator is set
    to the empty string, on a shallow clone with 7 commits, no warning is
    logged although the variable is set and 7 is below 50. *)
Lemma ci_warning_not_below_default_depth :
  (is_shallow_clone Sample.github (Sample.repo1 "/work/site/.git") = true /\
   environ Sample.github !! "GITHUB_ACTIONS" = Some "true" /\
   outcome (commit_count (Sample.repo1 "/work/site/.git")) = inr 1 /\
   ~ 1 < github_default_depth /\
   In (Logged WARNING msg_github)
      (trace (__init__ Sample.github "/work/site/docs" ∅))) /\
  (is_shallow_clone Sample.gitlab_empty (Sample.repo3 "/builds/site/.git") = true /\
   environ Sample.gitlab_empty !! "GITLAB_CI" = Some "" /\
   outcome (commit_count (Sample.repo3 "/builds/site/.git")) = inr 7 /\
   7 < gitlab_default_depth /\
   ~ In (Logged WARNING msg_gitlab)
        (trace (__init__ Sample.gitlab_empty "/builds/site/docs" ∅))).
Proof.
  split.
  - split; [reflexivity |]. split; [reflexivity |]. split; [reflexivity |].
    split; [unfold github_default_depth; lia |].
    vm_compute. right. right. left. reflexivity.
  - split; [reflexivity |]. split; [reflexivity |]. split; [reflexivity |].
    split; [reflexivity |].
    assert (Htrace : trace (__init__ Sample.gitlab_empty "/builds/site/docs" ∅) =
                     [Ran CmdForEachRef; Ran (CmdRevList "4f2a9c1");
                      Ran (CmdRevList "b81d07e"); Ran (CmdRevList "0c3e55a")])
      by reflexivity.
    rewrite Htrace. intros Hin.
    repeat (destruct Hin as [Hin | Hin]; [discriminate Hin |]). destruct Hin.
Qed.

(** ** Counting commits *)



Lemma flat_map_singleton {A B} (f : A -> B) (l : list A) :
  flat_map (fun x => [f x]) l = map f l.
Proof. induction l as [| x l IH]; simpl; [reflexivity | rewrite IH; reflexivity]. Qed.


Lemma bind_value {A B} (t : list event) (x : A) (k : A -> M B) :
  bind (t, inr x) k = (t ++ trace (k x), outcome (k x)).
Proof. unfold bind, trace, outcome. destruct (k x). reflexivity. Qed.

Lemma run_ok (cmd : git_cmd) (out : string) : run cmd (inr out) = ([Ran cmd], inr out).
Proof. reflexivity. Qed.



(* ===================================================================== *)
(** * The date formatter *)
(* ===================================================================== *)

Lemma in_range_iff (n : Z) :
  (Datetime.min_wall <=? n) && (n <=? Datetime.max_wall) = true <-> in_range n.
Proof. unfold in_range. rewrite andb_true_iff, !Z.leb_le. reflexivity. Qed.

Lemma utcfromtimestamp_ok (n : Z) :
  in_range n -> Datetime.utcfromtimestamp n = inr {| Datetime.naive_wall := n |}.
Proof.
  intros Hn. unfold Datetime.utcfromtimestamp.
  rewrite (proj2 (in_range_iff n) Hn).
  unfold in_range, Datetime.min_wall, Datetime.max_wall in Hn.
  destruct (n <? - 2 ^ 63) eqn:H1; [apply Z.ltb_lt in H1; lia |].
  destruct (2 ^ 63 <=? n) eqn:H2; [apply Z.leb_le in H2; lia |].
  reflexivity.
Qed.

Lemma utcfromtimestamp_inv (n : Z) (d : Datetime.naive) :
  Datetime.utcfromtimestamp n = inr d ->
  in_range n /\ d = {| Datetime.naive_wall := n |}.
Proof.
  unfold Datetime.utcfromtimestamp.
  destruct ((n <? - 2 ^ 63) || (2 ^ 63 <=? n)); [discriminate |].
  destruct ((Datetime.min_wall <=? n) && (n <=? Datetime.max_wall)) eqn:Hn;
    [| discriminate].
  intros [= <-]. split; [apply in_range_iff, Hn | reflexivity].
Qed.

Lemma get_timezone_UTC (w : World) : get_timezone w "UTC" = inr Datetime.utc.
Proof. reflexivity. Qed.

Lemma astimezone_from_utc (n : Z) (z : Datetime.timezone) :
  Datetime.astimezone (Datetime.replace_tzinfo {| Datetime.naive_wall := n |} Datetime.utc) z =
  if (Datetime.min_wall <=? n + Datetime.utcoffset_at z n)
     && (n + Datetime.utcoffset_at z n <=? Datetime.max_wall)
  then inr (local_time n z)
  else inl (Py.OverflowError "date value out of range").
Proof.
  unfold Datetime.astimezone, Datetime.replace_tzinfo, local_time. simpl.
  rewrite Z.sub_0_r. reflexivity.
Qed.

(** When every step succeeds, [_date_formats] returns the five entries. *)
Lemma date_formats_ok w ts locale tz n z l :
  int_timestamp ts = inr n ->
  in_range n ->
  get_timezone w tz = inr z ->
  in_range (n + Datetime.utcoffset_at z n) ->
  Locale_parse w locale = inr l ->
  _date_formats w ts locale tz = ([], inr (formats l (local_time n z) locale)).
Proof.
  intros Hts Hn Htz Hloc Hl. unfold _date_formats.
  rewrite Hts, bind_lift, (utcfromtimestamp_ok n Hn), bind_lift.
  rewrite get_timezone_UTC, bind_lift, Htz, bind_lift.
  rewrite astimezone_from_utc, (proj2 (in_range_iff _) Hloc), bind_lift.
  unfold format_date. rewrite Hl, !bind_lift. reflexivity.
Qed.

(** Conversely, a returned mapping tells that every step succeeded. *)
Lemma date_formats_inv w ts locale tz d :
  outcome (_date_formats w ts locale tz) = inr d ->
  exists n z l,
    int_timestamp ts = inr n /\ in_range n /\
    get_timezone w tz = inr z /\ in_range (n + Datetime.utcoffset_at z n) /\
    Locale_parse w locale = inr l /\
    d = formats l (local_time n z) locale.
Proof.
  unfold _date_formats.
  destruct (int_timestamp ts) as [e | n]; [discriminate |].
  rewrite bind_lift.
  destruct (Datetime.utcfromtimestamp n) as [e | u] eqn:Hu; [discriminate |].
  apply utcfromtimestamp_inv in Hu as [Hn ->].
  rewrite bind_lift, get_timezone_UTC, bind_lift.
  destruct (get_timezone w tz) as [e | z]; [discriminate |].
  rewrite bind_lift, astimezone_from_utc.
  destruct ((Datetime.min_wall <=? n + Datetime.utcoffset_at z n)
            && (n + Datetime.utcoffset_at z n <=? Datetime.max_wall)) eqn:Hloc;
    [| discriminate].
  rewrite bind_lift. unfold format_date.
  destruct (Locale_parse w locale) as [e | l]; [discriminate |].
  rewrite !bind_lift. intros [= <-].
  exists n, z, l.
  split; [reflexivity |]. split; [exact Hn |]. split; [reflexivity |].
  split; [apply in_range_iff, Hloc |]. split; reflexivity.
Qed.

(** The time of day always takes eight characters. *)
Lemma strftime_time_length (d : Datetime.aware) :
  String.length (Datetime.strftime d "%H:%M:%S") = 8%nat.
Proof.
  change (Datetime.strftime d "%H:%M:%S")
    with (Fmt.zero_pad 2 (Datetime.hour d) +:+ ":"
          +:+ Fmt.zero_pad 2 (Datetime.minute d) +:+ ":"
          +:+ Fmt.zero_pad 2 (Datetime.second d) +:+ "").
  rewrite !string_app_length, !zero_pad2_length; [reflexivity | | |].
  - unfold Datetime.second. pose proof (Z.mod_pos_bound (Datetime.wall d) 60). lia.
  - unfold Datetime.minute.
    pose proof (Z.mod_pos_bound (Datetime.wall d) 3600).
    assert (0 <= Datetime.wall d mod 3600 / 60 < 60); [| lia].
    split; [apply Z.div_pos; lia | apply Z.div_lt_upper_bound; lia].
  - unfold Datetime.hour.
    pose proof (Z.mod_pos_bound (Datetime.wall d) 86400).
    assert (0 <= Datetime.wall d mod 86400 / 3600 < 24); [| lia].
    split; [apply Z.div_pos; lia | apply Z.div_lt_upper_bound; lia].
Qed.

(** The full ISO format is the date format, a space, and the time
    format. *)
Lemma strftime_iso_datetime (d : Datetime.aware) :
  Datetime.strftime d "%Y-%m-%d %H:%M:%S" =
  Datetime.strftime d "%Y-%m-%d" +:+ " " +:+ Datetime.strftime d "%H:%M:%S".
Proof.
  change (Datetime.strftime d "%Y-%m-%d %H:%M:%S")
    with (Fmt.str (Datetime.year d) +:+ "-"
          +:+ Fmt.zero_pad 2 (Datetime.month d) +:+ "-"
          +:+ Fmt.zero_pad 2 (Datetime.day d) +:+ " "
          +:+ Datetime.strftime d "%H:%M:%S").
  change (Datetime.strftime d "%Y-%m-%d")
    with (Fmt.str (Datetime.year d) +:+ "-"
          +:+ Fmt.zero_pad 2 (Datetime.month d) +:+ "-"
          +:+ Fmt.zero_pad 2 (Datetime.day d) +:+ "").
  rewrite !string_app_assoc, string_app_nil_l. reflexivity.
Qed.

Lemma formats_lookup l d locale :
  formats l d locale !! "datetime" =
    Some (Babel.long_date l (Datetime.year d) (Datetime.month d) (Datetime.day d)
          +:+ " " +:+ Datetime.strftime d "%H:%M:%S") /\
  formats l d locale !! "iso_date" = Some (Datetime.strftime d "%Y-%m-%d") /\
  formats l d locale !! "iso_datetime" = Some (Datetime.strftime d "%Y-%m-%d %H:%M:%S").
Proof.
  unfold formats. split; [| split]; reflexivity.
Qed.

(** C4. For a valid timestamp, locale and time zone, [_date_formats]
    returns a mapping; and in a mapping it returns, [iso_datetime] is
    [iso_date], one space, and the eight characters [HH:MM:SS] that end
    [datetime]; the three entries are readings of one local date-time,
    that of the timestamp in the requested time zone. *)
Theorem iso_datetime_is_iso_date_and_time :
  forall (w : World) (ts : timestamp) (locale time_zone : string),
    (forall n z l,
       int_timestamp ts = inr n -> in_range n ->
       get_timezone w time_zone = inr z ->
       in_range (n + Datetime.utcoffset_at z n) ->
       Locale_parse w locale = inr l ->
       exists d, outcome (_date_formats w ts locale time_zone) = inr d) /\
    (forall d : gmap string string,
       outcome (_date_formats w ts locale time_zone) = inr d ->
       exists (datetime iso_date iso_datetime : string) (n : Z) (z : Datetime.timezone),
         d !! "datetime" = Some datetime /\
         d !! "iso_date" = Some iso_date /\
         d !! "iso_datetime" = Some iso_datetime /\
         int_timestamp ts = inr n /\
         get_timezone w time_zone = inr z /\
         last8 datetime = Datetime.strftime (local_time n z) "%H:%M:%S" /\
         iso_date = Datetime.strftime (local_time n z) "%Y-%m-%d" /\
         iso_datetime = iso_date +:+ " " +:+ last8 datetime).
Proof.
  intros w ts locale tz. split.
  { intros n z l Hts Hn Htz Hloc Hl. eexists.
    rewrite (date_formats_ok w ts locale tz n z l Hts Hn Htz Hloc Hl). reflexivity. }
  intros d Hd.
  apply date_formats_inv in Hd as (n & z & l & Hts & _ & Htz & _ & _ & ->).
  destruct (formats_lookup l (local_time n z) locale) as (H1 & H2 & H3).
  eexists _, _, _, n, z.
  split; [exact H1 |]. split; [exact H2 |]. split; [exact H3 |].
  split; [exact Hts |]. split; [exact Htz |].
  assert (Hlast : last8 (Babel.long_date l (Datetime.year (local_time n z))
                           (Datetime.month (local_time n z))
                           (Datetime.day (local_time n z))
                         +:+ " " +:+ Datetime.strftime (local_time n z) "%H:%M:%S")
                  = Datetime.strftime (local_time n z) "%H:%M:%S").
  { rewrite <- string_app_assoc. apply last8_app, strftime_time_length. }
  split; [exact Hlast |]. split; [reflexivity |].
  rewrite Hlast. apply strftime_iso_datetime.
Qed.

Lemma iso_datetime_is_iso_date_and_time_witness :
  exists d : gmap string string,
    outcome (_date_formats Sample.full (OfLog "1690000000") "en" "Asia/Kolkata") = inr d /\
    d !! "datetime" = Some "July 22, 2023 09:56:40" /\
    d !! "iso_date" = Some "2023-07-22" /\
    d !! "iso_datetime" = Some "2023-07-22 09:56:40" /\
    exists (datetime iso_date iso_datetime : string),
      d !! "datetime" = Some datetime /\
      d !! "iso_date" = Some iso_date /\
      d !! "iso_datetime" = Some iso_datetime /\
      iso_datetime = iso_date +:+ " " +:+ last8 datetime.
Proof.
  destruct (iso_datetime_is_iso_date_and_time Sample.full (OfLog "1690000000")
              "en" "Asia/Kolkata") as [Hret Hrel].
  destruct (Hret 1690000000 Sample.kolkata Sample.en) as [d0 Hd0].
  { reflexivity. }
  { unfold in_range, Datetime.min_wall, Datetime.max_wall. lia. }
  { reflexivity. }
  { unfold in_range, Datetime.min_wall, Datetime.max_wall. simpl. lia. }
  { reflexivity. }
  clear d0 Hd0.
  exists (formats Sample.en (local_time 1690000000 Sample.kolkata) "en").
  assert (Hd : outcome (_date_formats Sample.full (OfLog "1690000000") "en" "Asia/Kolkata")
               = inr (formats Sample.en (local_time 1690000000 Sample.kolkata) "en")).
  { vm_compute. reflexivity. }
  split; [exact Hd |].
  split; [vm_compute; reflexivity |].
  split; [vm_compute; reflexivity |].
  split; [vm_compute; reflexivity |].
  destruct (Hrel _ Hd) as (dt & id & idt & n & z & H1 & H2 & H3 & _ & _ & _ & _ & H4).
  exists dt, id, idt. repeat split; assumption.
Defined.

(** The formatter at 1690000000, read in UTC and in English. *)
Example date_formats_1690000000 :
  exists d : gmap string string,
    _date_formats Sample.full (OfLog "1690000000") "en" "UTC" = ([], inr d) /\
    d !! "date" = Some "July 22, 2023" /\
    d !! "datetime" = Some "July 22, 2023 04:26:40" /\
    d !! "iso_date" = Some "2023-07-22" /\
    d !! "iso_datetime" = Some "2023-07-22 04:26:40" /\
    d !! "timeago" =
      Some "<span class='timeago' datetime='2023-07-22T04:26:40+00:00' locale='en'></span>".
Proof.
  exists (formats Sample.en (local_time 1690000000 Datetime.utc) "en").
  repeat split; vm_compute; reflexivity.
Qed.

(* ===================================================================== *)
(** * The revision date resolver *)
(* ===================================================================== *)

Lemma bind_assoc {A B C} (m : M A) (k : A -> M B) (h : B -> M C) :
  bind (bind m k) h = bind m (fun x => bind (k x) h).
Proof.
  destruct m as [t [e | x]]; [reflexivity |]. unfold bind.
  destruct (k x) as [t1 [e1 | y]]; [reflexivity |].
  destruct (h y) as [t2 r2]. rewrite app_assoc. reflexivity.
Qed.

(** [get_revision_date_for_file] obtains a timestamp and formats it. *)
Lemma get_revision_date_split w self path locale tz fb :
  get_revision_date_for_file w self path locale tz fb =
  bind (obtain_timestamp w self path fb) (fun ts => _date_formats w ts locale tz).
Proof.
  unfold get_revision_date_for_file, obtain_timestamp.
  rewrite !bind_assoc. reflexivity.
Qed.

Lemma get_revision_date_outcome w self path locale tz fb :
  outcome (get_revision_date_for_file w self path locale tz fb) =
  match outcome (obtain_timestamp w self path fb) with
  | inr ts => outcome (_date_formats w ts locale tz)
  | inl e => inl e
  end.
Proof. rewrite get_revision_date_split. apply outcome_bind. Qed.

Lemma get_revision_date_trace w self path locale tz fb :
  trace (get_revision_date_for_file w self path locale tz fb) =
  trace (obtain_timestamp w self path fb).
Proof.
  rewrite get_revision_date_split, trace_bind.
  destruct (outcome _); [| rewrite date_formats_trace]; apply app_nil_r.
Qed.

(** In fallback-only mode, nothing is run and nothing is logged. *)
Lemma obtain_fallback_only w self path fb :
  fallback_enabled self = true ->
  obtain_timestamp w self path fb = ([], inr (OfClock (time w))).
Proof. intros H. unfold obtain_timestamp. rewrite H. reflexivity. Qed.

(** With a repository, the query is run once; what follows depends on
    its result. *)
Lemma obtain_bound w self path fb g :
  fallback_enabled self = false ->
  repo self = Some g ->
  obtain_timestamp w self path fb =
  match log g path with
  | inr (String c s) => ([Ran (CmdLog path)], inr (OfLog (String c s)))
  | inr EmptyString =>
      ([Ran (CmdLog path); Logged WARNING (msg_no_logs path)], inr (OfClock (time w)))
  | inl f =>
      if fb then
        ([Ran (CmdLog path);
          Logged WARNING (match f with
                          | CommandFailed _ _ => msg_log_failed_fallback path
                          | CommandNotFound => msg_no_git_fallback
                          end);
          Logged WARNING (msg_no_logs path)], inr (OfClock (time w)))
      else
        ([Ran (CmdLog path);
          Logged ERROR (match f with
                        | CommandFailed _ _ => msg_log_failed_error path
                        | CommandNotFound => msg_no_git_error
                        end)], inl (git_exn f))
  end.
Proof.
  intros Hfb Hrepo. unfold obtain_timestamp, self_repo_log, git_log.
  rewrite Hfb, Hrepo.
  destruct (log g path) as [[st err |] | [| c s]]; try reflexivity;
    destruct fb; reflexivity.
Qed.

(** A timestamp that was obtained is the one [obtained_timestamp]
    describes. *)
Lemma obtain_timestamp_value w self path fb ts :
  outcome (obtain_timestamp w self path fb) = inr ts ->
  ts = obtained_timestamp w self path.
Proof.
  unfold obtained_timestamp.
  destruct (fallback_enabled self) eqn:Hfb.
  - rewrite (obtain_fallback_only w self path fb Hfb). intros [= <-]. reflexivity.
  - destruct (repo self) as [g |] eqn:Hrepo.
    + rewrite (obtain_bound w self path fb g Hfb Hrepo).
      destruct (log g path) as [f | [| c s]].
      * destruct fb; [intros [= <-]; reflexivity | discriminate].
      * intros [= <-]. reflexivity.
      * intros [= <-]. reflexivity.
    + unfold obtain_timestamp, self_repo_log. rewrite Hfb, Hrepo. discriminate.
Qed.

(** C2. In fallback-only mode, a call of [get_revision_date_for_file]
    is the formatting of the clock reading, whatever the path and the
    per-call flag: no git command is run (and nothing is logged). *)
Theorem fallback_only_formats_now :
  forall (w : World) (self : Util) (path locale time_zone : string)
         (fallback_to_build_date : bool),
    fallback_enabled self = true ->
    get_revision_date_for_file w self path locale time_zone fallback_to_build_date
      = _date_formats w (OfClock (time w)) locale time_zone /\
    trace (get_revision_date_for_file w self path locale time_zone
             fallback_to_build_date) = [].
Proof.
  intros w self path locale tz fb Hfb. split.
  - rewrite get_revision_date_split, (obtain_fallback_only w self path fb Hfb).
    exact (bind_ret_l (OfClock (time w)) (fun ts => _date_formats w ts locale tz)).
  - rewrite get_revision_date_trace, (obtain_fallback_only w self path fb Hfb).
    reflexivity.
Qed.

Lemma fallback_only_formats_now_witness :
  outcome (__init__ Sample.bare "/srv/site/docs" Sample.fallback_on) = inr Sample.unbound /\
  trace (get_revision_date_for_file Sample.bare Sample.unbound "index.md" "en" "UTC" false)
    = [] /\
  get_revision_date_for_file Sample.bare Sample.unbound "index.md" "en" "UTC" false
    = ([], inr (formats Sample.en (local_time 1700000000 Datetime.utc) "en")).
Proof.
  destruct (fallback_only_formats_now Sample.bare Sample.unbound "index.md" "en" "UTC"
              false eq_refl) as [Hnow Htrace].
  split; [reflexivity |]. split; [exact Htrace |].
  rewrite Hnow. vm_compute. reflexivity.
Defined.

(** With a per-call fallback or in fallback-only mode, no error is
    logged while the timestamp is obtained, and the one obtained is
    [obtained_timestamp]. The instance is one that [__init__] can
    return: it holds a repository unless it is in fallback-only mode. *)
Lemma obtain_with_fallback w self path fb :
  fb = true \/ fallback_enabled self = true ->
  (fallback_enabled self = false -> exists g, repo self = Some g) ->
  outcome (obtain_timestamp w self path fb) = inr (obtained_timestamp w self path) /\
  forall msg, ~ In (Logged ERROR msg) (trace (obtain_timestamp w self path fb)).
Proof.
  intros Hperm Hinv.
  destruct (fallback_enabled self) eqn:Hfb.
  - rewrite (obtain_fallback_only w self path fb Hfb).
    unfold obtained_timestamp. rewrite Hfb. split; [reflexivity |].
    intros msg [].
  - destruct Hperm as [-> | Habs]; [| discriminate].
    destruct (Hinv eq_refl) as [g Hrepo].
    rewrite (obtain_bound w self path true g Hfb Hrepo).
    unfold obtained_timestamp. rewrite Hfb, Hrepo.
    destruct (log g path) as [f | [| c s]]; simpl;
      (split; [reflexivity |]); intros msg Hin;
      repeat (destruct Hin as [Hin | Hin]; [discriminate Hin |]); destruct Hin.
Qed.

(** C3, as the code has it. When fallback is permitted (per call, or
    because the instance is in fallback-only mode), the branches that
    re-raise are not taken: no error is logged and a failure of the
    history query never leaves the call, whose outcome is that of
    formatting the obtained timestamp. A mapping is returned when that
    timestamp converts: it reads as an integer that [datetime] can
    represent, also in the requested time zone, and the time zone and
    the locale are valid. When fallback is disabled, a failure of the
    history query leaves the call. *)
Theorem fallback_permitted_never_reraises :
  (forall (w : World) (self : Util) (path locale time_zone : string)
          (fallback_to_build_date : bool),
     fallback_to_build_date = true \/ fallback_enabled self = true ->
     (fallback_enabled self = false -> exists g, repo self = Some g) ->
     outcome (get_revision_date_for_file w self path locale time_zone
                fallback_to_build_date)
       = outcome (_date_formats w (obtained_timestamp w self path) locale time_zone) /\
     (forall msg,
        ~ In (Logged ERROR msg)
             (trace (get_revision_date_for_file w self path locale time_zone
                       fallback_to_build_date))) /\
     (forall n z l,
        int_timestamp (obtained_timestamp w self path) = inr n ->
        in_range n ->
        get_timezone w time_zone = inr z ->
        in_range (n + Datetime.utcoffset_at z n) ->
        Locale_parse w locale = inr l ->
        outcome (get_revision_date_for_file w self path locale time_zone
                   fallback_to_build_date)
          = inr (formats l (local_time n z) locale))) /\
  (forall (w : World) (self : Util) (path locale time_zone : string)
          (g : Git) (f : git_failure),
     fallback_enabled self = false ->
     repo self = Some g ->
     log g path = inl f ->
     outcome (get_revision_date_for_file w self path locale time_zone false)
       = inl (git_exn f)).
Proof.
  split.
  - intros w self path locale tz fb Hperm Hinv.
    destruct (obtain_with_fallback w self path fb Hperm Hinv) as [Hout Hlog].
    assert (Heq : outcome (get_revision_date_for_file w self path locale tz fb)
                  = outcome (_date_formats w (obtained_timestamp w self path) locale tz)).
    { rewrite get_revision_date_outcome, Hout. reflexivity. }
    split; [exact Heq |]. split.
    + intros msg. rewrite get_revision_date_trace. apply Hlog.
    + intros n z l Hts Hn Htz Hloc Hl. rewrite Heq.
      rewrite (date_formats_ok w _ locale tz n z l Hts Hn Htz Hloc Hl). reflexivity.
  - intros w self path locale tz g f Hfb Hrepo Hlog.
    rewrite get_revision_date_outcome, (obtain_bound w self path false g Hfb Hrepo), Hlog.
    reflexivity.
Qed.

Lemma fallback_permitted_never_reraises_witness :
  outcome (get_revision_date_for_file Sample.full
             (Sample.bound (Sample.repo3 "/srv/site/.git")) "locked.md" "en" "UTC" true)
    = inr (formats Sample.en (local_time 1700000000 Datetime.utc) "en") /\
  outcome (get_revision_date_for_file Sample.full
             (Sample.bound (Sample.repo3 "/srv/site/.git")) "locked.md" "en" "UTC" false)
    = inl (Py.GitCommandError 128 "fatal: unable to read").
Proof.
  destruct fallback_permitted_never_reraises as [Hon Hoff].
  split.
  - destruct (Hon Sample.full (Sample.bound (Sample.repo3 "/srv/site/.git"))
                "locked.md" "en" "UTC" true) as (_ & _ & Hmap).
    + left. reflexivity.
    + intros _. exists (Sample.repo3 "/srv/site/.git"). reflexivity.
    + apply (Hmap 1700000000 Datetime.utc Sample.en).
      * reflexivity.
      * unfold in_range, Datetime.min_wall, Datetime.max_wall. lia.
      * reflexivity.
      * unfold in_range, Datetime.min_wall, Datetime.max_wall. simpl. lia.
      * reflexivity.
  - apply (Hoff Sample.full (Sample.bound (Sample.repo3 "/srv/site/.git"))
             "locked.md" "en" "UTC" (Sample.repo3 "/srv/site/.git")
             (CommandFailed 128 "fatal: unable to read")); reflexivity.
Defined.

(** C3, as stated, fails: with the per-call fallback enabled, a valid
    locale and a valid time zone, a history query that prints a signature
    line before the timestamp makes [int] raise a [ValueError], which
    leaves the call. *)
Lemma fallback_does_not_cover_conversion :
  Locale_parse Sample.full "en" = inr Sample.en /\
  get_timezone Sample.full "UTC" = inr Datetime.utc /\
  log (Sample.repo3 "/srv/site/.git") "signed.md" =
    inr "gpg: Signature made Sat Jul 22 04:26:40 2023 UTC
1690000000" /\
  exists msg,
    outcome (get_revision_date_for_file Sample.full
               (Sample.bound (Sample.repo3 "/srv/site/.git")) "signed.md" "en" "UTC" true)
      = inl (Py.ValueError msg).
Proof.
  split; [reflexivity |]. split; [reflexivity |]. split; [reflexivity |].
  eexists. vm_compute. reflexivity.
Qed.

(** ** Formatting errors *)

Lemma Locale_parse_nonempty (w : World) (locale : string) :
  locale <> "" -> Locale_parse w locale = parse_locale w locale.
Proof.
  intros Hne. unfold Locale_parse.
  destruct (String.eqb_spec locale ""); [congruence | reflexivity].
Qed.

(** C5, as the code has it. The formatter reports a rejected time zone
    and a rejected locale, in the order of its steps, and no fallback
    setting hides them; the empty locale identifier is not rejected but
    stands for the default locale:
    - for a timestamp that [datetime] can represent, a time zone name
      that [get_timezone] rejects raises the exception [get_timezone]
      gave, whatever the locale;
    - for such a timestamp and a valid time zone, a locale that
      [Locale.parse] rejects raises the exception [Locale.parse] gave; a
      non-empty identifier is parsed as it is;
    - the empty identifier is parsed as [LC_TIME]: when that one is
      valid, a mapping is returned, in the default locale;
    - with a rejected zone or a rejected locale, [_date_formats] returns
      no mapping for any timestamp, and [get_revision_date_for_file]
      returns no mapping for any instance, path and per-call fallback
      flag. *)
Theorem invalid_locale_or_timezone_fails :
  forall (w : World) (locale time_zone : string),
    (forall ts n e,
       get_timezone w time_zone = inl e ->
       int_timestamp ts = inr n -> in_range n ->
       _date_formats w ts locale time_zone = ([], inl e)) /\
    (forall ts n z e,
       Locale_parse w locale = inl e ->
       int_timestamp ts = inr n -> in_range n ->
       get_timezone w time_zone = inr z ->
       in_range (n + Datetime.utcoffset_at z n) ->
       _date_formats w ts locale time_zone = ([], inl e)) /\
    (locale <> "" -> Locale_parse w locale = parse_locale w locale) /\
    (forall ts n z l,
       parse_locale w (LC_TIME w) = inr l ->
       int_timestamp ts = inr n -> in_range n ->
       get_timezone w time_zone = inr z ->
       in_range (n + Datetime.utcoffset_at z n) ->
       _date_formats w ts "" time_zone = ([], inr (formats l (local_time n z) ""))) /\
    ((exists e, get_timezone w time_zone = inl e) \/
     (exists e, Locale_parse w locale = inl e) ->
     (forall ts, exists e, outcome (_date_formats w ts locale time_zone) = inl e) /\
     (forall self path fb,
        exists e,
          outcome (get_revision_date_for_file w self path locale time_zone fb) = inl e)).
Proof.
  intros w locale tz. split; [| split; [| split; [| split]]].
  - intros ts n e He Hts Hn. unfold _date_formats.
    rewrite Hts, bind_lift, (utcfromtimestamp_ok n Hn), bind_lift.
    rewrite get_timezone_UTC, bind_lift, He. reflexivity.
  - intros ts n z e He Hts Hn Htz Hloc. unfold _date_formats.
    rewrite Hts, bind_lift, (utcfromtimestamp_ok n Hn), bind_lift.
    rewrite get_timezone_UTC, bind_lift.
    rewrite Htz, bind_lift, astimezone_from_utc, (proj2 (in_range_iff _) Hloc), bind_lift.
    unfold format_date. rewrite He. reflexivity.
  - apply Locale_parse_nonempty.
  - intros ts n z l Hl Hts Hn Htz Hloc.
    apply (date_formats_ok w ts "" tz n z l Hts Hn Htz Hloc). exact Hl.
  - intros Hbad.
    assert (Hfmt : forall ts, exists e,
               outcome (_date_formats w ts locale tz) = inl e).
    { intros ts.
      destruct (outcome (_date_formats w ts locale tz)) as [e | d] eqn:Hd;
        [exists e; reflexivity |].
      exfalso.
      apply date_formats_inv in Hd as (n & z & l & _ & _ & Htz & _ & Hl & _).
      destruct Hbad as [[e He] | [e He]].
      - rewrite He in Htz. discriminate.
      - rewrite He in Hl. discriminate. }
    split; [exact Hfmt |].
    intros self path fb. rewrite get_revision_date_outcome.
    destruct (outcome (obtain_timestamp w self path fb)) as [e | ts];
      [exists e; reflexivity | apply Hfmt].
Qed.

Lemma invalid_locale_or_timezone_fails_witness :
  _date_formats Sample.full (OfLog "1690000000") "en" "Mars/Phobos" =
    ([], inl (Py.LookupError "Unknown timezone Mars/Phobos")) /\
  _date_formats Sample.full (OfLog "1690000000") "tlh" "Asia/Kolkata" =
    ([], inl (Py.UnknownLocaleError "tlh")) /\
  _date_formats Sample.full (OfLog "1690000000") "" "Asia/Kolkata" =
    ([], inr (formats Sample.en (local_time 1690000000 Sample.kolkata) "")) /\
  (exists e,
     outcome (get_revision_date_for_file Sample.full Sample.unbound "index.md"
                "tlh" "UTC" true) = inl e).
Proof.
  destruct (invalid_locale_or_timezone_fails Sample.full "en" "Mars/Phobos")
    as (Hzone & _).
  destruct (invalid_locale_or_timezone_fails Sample.full "tlh" "Asia/Kolkata")
    as (_ & Hlocale & _ & Hdefault & _).
  destruct (invalid_locale_or_timezone_fails Sample.full "tlh" "UTC")
    as (_ & _ & _ & _ & Hhidden).
  split; [| split; [| split]].
  - apply (Hzone (OfLog "1690000000") 1690000000).
    + reflexivity.
    + reflexivity.
    + unfold in_range, Datetime.min_wall, Datetime.max_wall. lia.
  - apply (Hlocale (OfLog "1690000000") 1690000000 Sample.kolkata).
    + reflexivity.
    + reflexivity.
    + unfold in_range, Datetime.min_wall, Datetime.max_wall. lia.
    + reflexivity.
    + unfold in_range, Datetime.min_wall, Datetime.max_wall. simpl. lia.
  - apply (Hdefault (OfLog "1690000000") 1690000000 Sample.kolkata Sample.en).
    + reflexivity.
    + reflexivity.
    + unfold in_range, Datetime.min_wall, Datetime.max_wall. lia.
    + reflexivity.
    + unfold in_range, Datetime.min_wall, Datetime.max_wall. simpl. lia.
  - apply Hhidden. right. exists (Py.UnknownLocaleError "tlh"). reflexivity.
Defined.

(** C5, as stated, fails three times. The empty locale identifier,
    which [Locale.parse] rejects, is replaced by the default locale and a
    mapping is returned; with an invalid locale and an invalid time zone,
    the exception is the one of the time zone; with an invalid locale and
    a timestamp beyond the year 9999, it is the one of the timestamp. *)
Lemma invalid_locale_not_always_reported :
  (parse_locale Sample.full "" = inl (Py.ValueError "expected only letters, got ''") /\
   _date_formats Sample.full (OfLog "1690000000") "" "UTC" =
     ([], inr (formats Sample.en (local_time 1690000000 Datetime.utc) ""))) /\
  (parse_locale Sample.full "tlh" = inl (Py.UnknownLocaleError "tlh") /\
   _date_formats Sample.full (OfLog "1690000000") "tlh" "Mars/Phobos" =
     ([], inl (Py.LookupError "Unknown timezone Mars/Phobos"))) /\
  (exists msg,
     _date_formats Sample.full (OfLog "999999999999") "tlh" "UTC" =
       ([], inl (Py.ValueError msg))).
Proof.
  split; [| split].
  - split; [reflexivity |]. vm_compute. reflexivity.
  - split; reflexivity.
  - eexists. vm_compute. reflexivity.
Qed.

(* ===================================================================== *)
(** * More on [commit_count] *)
(* ===================================================================== *)

Lemma for_each_inv {A B} (f : A -> M B) (l : list A) (ys : list B) :
  outcome (for_each f l) = inr ys ->
  Forall2 (fun x y => outcome (f x) = inr y) l ys /\
  trace (for_each f l) = flat_map (fun x => trace (f x)) l.
Proof.
  revert ys. induction l as [| x l IH]; intros ys; simpl.
  - intros [= <-]. split; [constructor | reflexivity].
  - rewrite outcome_bind, trace_bind.
    destruct (outcome (f x)) as [e | y] eqn:Hx; [discriminate |].
    rewrite outcome_bind, trace_bind.
    destruct (outcome (for_each f l)) as [e | ys'] eqn:Hl; [discriminate |].
    simpl. intros [= <-]. destruct (IH ys' eq_refl) as [Hall Htr].
    split; [constructor; assumption |].
    rewrite Htr, app_nil_r. reflexivity.
Qed.

(** A comprehension stops at the first element that raises. *)
Lemma for_each_raises {A B} (f : A -> M B) (pre post : list A) (x : A) (e : Py.exn) :
  Forall (fun y => exists v, outcome (f y) = inr v) pre ->
  outcome (f x) = inl e ->
  outcome (for_each f (pre ++ x :: post)) = inl e /\
  trace (for_each f (pre ++ x :: post)) = flat_map (fun y => trace (f y)) (pre ++ [x]).
Proof.
  intros Hpre Hx. induction Hpre as [| y pre [v Hy] _ IH]; simpl.
  - rewrite outcome_bind, trace_bind, Hx. split; [reflexivity |].
    rewrite !app_nil_r. reflexivity.
  - rewrite outcome_bind, trace_bind, Hy, outcome_bind, trace_bind.
    destruct IH as [-> ->]. split; [reflexivity |].
    rewrite app_nil_r. reflexivity.
Qed.

(** The comprehension that takes the first word of every line. *)
Lemma for_each_first_words (lines : list string) :
  for_each (fun x => lift (Py.item0 (Py.split x))) lines =
  ([], match first_words lines with
       | Some xs => inr xs
       | None => inl Py.IndexError
       end).
Proof.
  induction lines as [| l ls IH]; [reflexivity |].
  change (for_each (fun x => lift (Py.item0 (Py.split x))) (l :: ls))
    with (y <- lift (Py.item0 (Py.split l)) ;;
          ys <- for_each (fun x => lift (Py.item0 (Py.split x))) ls ;; ret (y :: ys)).
  rewrite bind_lift, IH. simpl.
  destruct (Py.split l) as [| x xs]; [reflexivity |].
  simpl. destruct (first_words ls); reflexivity.
Qed.

(** One element of the comprehension that counts. *)
Lemma count_step (g : Git) (x : string) :
  (n <- git_rev_list g x ;; lift (Py.int_str n)) =
  ([Ran (CmdRevList x)], read_count g x).
Proof.
  unfold git_rev_list, read_count.
  destruct (rev_list g x) as [f | s]; [reflexivity |].
  rewrite run_ok, bind_value. reflexivity.
Qed.

(** [commit_count] once the references are listed and named. *)
Lemma commit_count_named (g : Git) (out : string) (names : list string) :
  for_each_ref g = inr out ->
  first_words (Py.split_sep "010" out) = Some names ->
  commit_count g =
  (Ran CmdForEachRef ::
     trace (counts <- for_each (fun x => ([Ran (CmdRevList x)], read_count g x)) names ;;
            lift (Py.max counts)),
   outcome (counts <- for_each (fun x => ([Ran (CmdRevList x)], read_count g x)) names ;;
            lift (Py.max counts))).
Proof.
  intros Hout Hnames. unfold commit_count, git_for_each_ref.
  rewrite Hout, run_ok, bind_value. cbv beta.
  rewrite for_each_first_words, Hnames, bind_value. cbv beta.
  replace (for_each (fun x => n <- git_rev_list g x;; lift (Py.int_str n)) names)
    with (for_each (fun x => ([Ran (CmdRevList x)], read_count g x)) names).
  - reflexivity.
  - clear. induction names as [| x xs IH]; [reflexivity |].
    simpl. rewrite IH, count_step. reflexivity.
Qed.

Lemma first_words_None (lines : list string) :
  (exists l, In l lines /\ Py.split l = []) -> first_words lines = None.
Proof.
  intros (l & Hin & Hl). induction lines as [| l' ls IH]; [destruct Hin |].
  simpl. destruct Hin as [-> | Hin].
  - rewrite Hl. reflexivity.
  - destruct (Py.split l'); [reflexivity |]. rewrite (IH Hin). reflexivity.
Qed.

Lemma split_sep_nonempty (sep : ascii) (s : string) : Py.split_sep sep s <> [].
Proof.
  destruct s as [| c s]; simpl; [discriminate |].
  destruct (Ascii.eqb c sep); [discriminate |].
  destruct (Py.split_sep sep s); discriminate.
Qed.

(** A text that ends with the separator has a last, empty field. *)
Lemma split_sep_trailing (sep : ascii) (s : string) :
  Py.split_sep sep (s +:+ String sep "") = Py.split_sep sep s ++ [""].
Proof.
  induction s as [| c s IH].
  - rewrite string_app_nil_l. simpl. rewrite Ascii.eqb_refl. reflexivity.
  - rewrite string_app_cons. simpl. rewrite IH.
    destruct (Ascii.eqb c sep); [reflexivity |].
    pose proof (split_sep_nonempty sep s) as Hne.
    destruct (Py.split_sep sep s) as [| f fs]; [congruence | reflexivity].
Qed.

Lemma commit_count_listing_fails (g : Git) (f : git_failure) :
  for_each_ref g = inl f ->
  commit_count g = ([Ran CmdForEachRef], inl (git_exn f)).
Proof. intros H. unfold commit_count, git_for_each_ref. rewrite H. reflexivity. Qed.

Lemma commit_count_no_word (g : Git) (out : string) :
  for_each_ref g = inr out ->
  first_words (Py.split_sep "010" out) = None ->
  commit_count g = ([Ran CmdForEachRef], inl Py.IndexError).
Proof.
  intros Hout Hnone. unfold commit_count, git_for_each_ref.
  rewrite Hout, run_ok, bind_value. cbv beta.
  rewrite for_each_first_words, Hnone. reflexivity.
Qed.

(** X1. A value returned by [commit_count] is the largest of the counts
    it read: the listing succeeded, every line had a first word, the
    count of every first word was read, and the value is one of these
    counts and no smaller than any. The commands run are the listing, then
    one count per line, in the order of the lines. *)
Theorem commit_count_returns_a_listed_count :
  forall (g : Git) (m : Z),
    outcome (commit_count g) = inr m ->
    exists (out : string) (names : list string) (counts : list Z),
      for_each_ref g = inr out /\
      first_words (Py.split_sep "010" out) = Some names /\
      Forall2 (fun x c => read_count g x = inr c) names counts /\
      In m counts /\
      Forall (fun c => c <= m) counts /\
      trace (commit_count g) =
        Ran CmdForEachRef :: map (fun x => Ran (CmdRevList x)) names.
Proof.
  intros g m Hm.
  destruct (for_each_ref g) as [f | out] eqn:Hout.
  { rewrite (commit_count_listing_fails g f Hout) in Hm. discriminate Hm. }
  destruct (first_words (Py.split_sep "010" out)) as [names |] eqn:Hnames.
  2:{ rewrite (commit_count_no_word g out Hout Hnames) in Hm. discriminate Hm. }
  rewrite (commit_count_named g out names Hout Hnames) in Hm |- *.
  unfold outcome at 1 in Hm. simpl snd in Hm. unfold trace at 1. simpl fst.
  rewrite outcome_bind in Hm. rewrite trace_bind.
  destruct (outcome (for_each _ names)) as [e | counts] eqn:Hcounts; [discriminate Hm |].
  destruct (for_each_inv _ _ _ Hcounts) as [Hall Htr].
  exists out, names, counts.
  split; [reflexivity |]. split; [exact Hnames |]. split; [exact Hall |].
  destruct counts as [| c cs]; [discriminate Hm |].
  destruct (max_spec (c :: cs)) as (m' & Hmax & Hin & Hle); [discriminate |].
  unfold outcome, lift in Hm. simpl in Hm. unfold Py.max in Hmax.
  rewrite Hmax in Hm. injection Hm as <-.
  split; [exact Hin |]. split; [exact Hle |].
  unfold trace in Htr |- *. simpl fst in Htr |- *.
  rewrite Htr, flat_map_singleton. unfold lift. simpl. rewrite app_nil_r.
  reflexivity.
Qed.

Lemma commit_count_returns_a_listed_count_witness :
  outcome (commit_count (Sample.repo3 "/srv/site/.git")) = inr 7 /\
  exists (names : list string) (counts : list Z),
    Forall2 (fun x c => read_count (Sample.repo3 "/srv/site/.git") x = inr c) names counts /\
    In 7 counts /\ Forall (fun c => c <= 7) counts.
Proof.
  split; [reflexivity |].
  destruct (commit_count_returns_a_listed_count (Sample.repo3 "/srv/site/.git") 7 eq_refl)
    as (out & names & counts & _ & _ & Hall & Hin & Hle & _).
  exists names, counts. split; [exact Hall |]. split; [exact Hin | exact Hle].
Defined.

(** X2. A listing with a line that holds no word makes [commit_count]
    raise [IndexError] right after the listing, before any count is
    taken. Such are the empty listing (no reference at all) and a listing
    that ends with a newline. *)
Theorem commit_count_line_without_word :
  forall (g : Git),
    (forall out,
       for_each_ref g = inr out ->
       (exists l, In l (Py.split_sep "010" out) /\ Py.split l = []) ->
       commit_count g = ([Ran CmdForEachRef], inl Py.IndexError)) /\
    (for_each_ref g = inr "" ->
     commit_count g = ([Ran CmdForEachRef], inl Py.IndexError)) /\
    (forall s,
       for_each_ref g = inr (s +:+ String "010" "") ->
       commit_count g = ([Ran CmdForEachRef], inl Py.IndexError)).
Proof.
  intros g.
  assert (Hgen : forall out,
             for_each_ref g = inr out ->
             (exists l, In l (Py.split_sep "010" out) /\ Py.split l = []) ->
             commit_count g = ([Ran CmdForEachRef], inl Py.IndexError)).
  { intros out Hout Hl. apply (commit_count_no_word g out Hout).
    apply first_words_None, Hl. }
  split; [exact Hgen |]. split.
  - intros Hout. apply (Hgen "" Hout). exists "". split; [left |]; reflexivity.
  - intros s Hout. apply (Hgen _ Hout). exists "". split; [| reflexivity].
    rewrite split_sep_trailing. apply in_or_app. right. left. reflexivity.
Qed.

Lemma commit_count_line_without_word_witness :
  commit_count (Sample.repo0 "/work/site/.git") = ([Ran CmdForEachRef], inl Py.IndexError) /\
  commit_count (Sample2.repo_newline "/srv/site/.git") =
    ([Ran CmdForEachRef], inl Py.IndexError).
Proof.
  split.
  - destruct (commit_count_line_without_word (Sample.repo0 "/work/site/.git"))
      as (_ & Hempty & _).
    apply Hempty. reflexivity.
  - destruct (commit_count_line_without_word (Sample2.repo_newline "/srv/site/.git"))
      as (_ & _ & Hnl).
    apply (Hnl "4f2a9c1 commit	refs/heads/main"). reflexivity.
Defined.

(** X3. [commit_count] stops at the first reference whose count cannot
    be read (the command fails, or prints something that is not an
    integer): it raises that exception, having run the listing and the
    counts of the references up to that one, and none after. *)
Theorem commit_count_stops_at_first_failure :
  forall (g : Git) (out : string) (pre post : list string) (x : string) (e : Py.exn),
    for_each_ref g = inr out ->
    first_words (Py.split_sep "010" out) = Some (pre ++ x :: post) ->
    Forall (fun y => exists c, read_count g y = inr c) pre ->
    read_count g x = inl e ->
    commit_count g =
      (Ran CmdForEachRef :: map (fun y => Ran (CmdRevList y)) (pre ++ [x]), inl e).
Proof.
  intros g out pre post x e Hout Hnames Hpre Hx.
  rewrite (commit_count_named g out _ Hout Hnames).
  destruct (for_each_raises (fun y => ([Ran (CmdRevList y)], read_count g y))
              pre post x e) as [Ho Ht].
  { eapply Forall_impl; [exact Hpre |]. intros y [c Hc]. exists c. exact Hc. }
  { exact Hx. }
  rewrite outcome_bind, trace_bind, Ho, Ht. unfold trace. simpl fst.
  rewrite flat_map_singleton, app_nil_r. reflexivity.
Qed.

Lemma commit_count_stops_at_first_failure_witness :
  commit_count (Sample2.repo_lost "/srv/site/.git") =
    ([Ran CmdForEachRef; Ran (CmdRevList "4f2a9c1"); Ran (CmdRevList "b81d07e")],
     inl (Py.GitCommandError 128 "fatal: bad object b81d07e")).
Proof.
  apply (commit_count_stops_at_first_failure (Sample2.repo_lost "/srv/site/.git")
           (join_lines (map ref_line Sample.refs))
           ["4f2a9c1"] ["0c3e55a"] "b81d07e").
  - reflexivity.
  - reflexivity.
  - constructor; [| constructor]. exists 3. reflexivity.
  - reflexivity.
Defined.

(* ===================================================================== *)
(** * More on construction and on queries *)
(* ===================================================================== *)

(** The outcome of a construction that located the repository. *)
Lemma init_located_outcome w path config g :
  Repo w path = inr g ->
  outcome (__init__ w path config) =
  if is_shallow_clone w g then
    match outcome (commit_count g) with
    | inl e => inl e
    | inr _ => inr {| fallback_enabled := false; repo := Some g |}
    end
  else inr {| fallback_enabled := false; repo := Some g |}.
Proof.
  intros Hrepo. unfold __init__. rewrite Hrepo.
  destruct (is_shallow_clone w g); [| reflexivity].
  rewrite !outcome_bind.
  destruct (outcome (commit_count g)) as [e | n]; [reflexivity |].
  rewrite outcome_bind.
  destruct (Py.env_truthy (environ w) "GITLAB_CI" && (n <? 50));
    destruct (Py.env_truthy (environ w) "GITHUB_ACTIONS" && (n =? 1)); reflexivity.
Qed.

(** X4. Once the repository is located, neither the configuration nor
    the environment variables have a say in the outcome of [__init__]:
    two constructions that locate the same repository and agree on the
    shallow test end alike, and an instance that is returned is the one
    bound to the repository, not in fallback-only mode. *)
Theorem init_outcome_ignores_config_and_environment :
  forall (w w' : World) (path path' : string)
         (config config' : gmap string Py.value) (g : Git),
    Repo w path = inr g ->
    Repo w' path' = inr g ->
    is_shallow_clone w g = is_shallow_clone w' g ->
    outcome (__init__ w path config) = outcome (__init__ w' path' config') /\
    (forall self,
       outcome (__init__ w path config) = inr self ->
       self = {| fallback_enabled := false; repo := Some g |}).
Proof.
  intros w w' path path' config config' g Hrepo Hrepo' Hsh.
  rewrite (init_located_outcome w path config g Hrepo).
  rewrite (init_located_outcome w' path' config' g Hrepo'), <- Hsh.
  split; [reflexivity |].
  intros self. destruct (is_shallow_clone w g).
  - destruct (outcome (commit_count g)); [discriminate |]. intros [= <-]. reflexivity.
  - intros [= <-]. reflexivity.
Qed.

Lemma init_outcome_ignores_config_and_environment_witness :
  outcome (__init__ Sample.gitlab "/builds/site/docs" ∅) =
    outcome (__init__ Sample.gitlab_empty "/builds/site/docs" Sample.fallback_on) /\
  outcome (__init__ Sample.gitlab "/builds/site/docs" ∅) =
    inr (Sample.bound (Sample.repo3 "/builds/site/.git")) /\
  (forall self,
     outcome (__init__ Sample.gitlab "/builds/site/docs" ∅) = inr self ->
     self = Sample.bound (Sample.repo3 "/builds/site/.git")).
Proof.
  destruct (init_outcome_ignores_config_and_environment
              Sample.gitlab Sample.gitlab_empty "/builds/site/docs" "/builds/site/docs"
              ∅ Sample.fallback_on (Sample.repo3 "/builds/site/.git")
              eq_refl eq_refl eq_refl) as [Hsame Hself].
  split; [exact Hsame |]. split; [reflexivity | exact Hself].
Defined.

(** X5. [__init__] logs an error in one situation only: the repository
    was not located and the fallback option is not enabled; the message
    is then the one that names the option. In particular no error is
    logged by a construction that returns an instance, nor by the
    shallow-clone detection. *)
Theorem init_logs_error_iff_not_found :
  forall (w : World) (path : string) (config : gmap string Py.value) (msg : string),
    In (Logged ERROR msg) (trace (__init__ w path config)) <->
    (exists e, Repo w path = inl e) /\
    Py.get_truthy config "fallback_to_build_date" = false /\
    msg = msg_no_repo_error.
Proof.
  intros w path config msg. split.
  - destruct (Repo w path) as [e | g] eqn:Hrepo.
    + unfold __init__. rewrite Hrepo.
      destruct (Py.get_truthy config "fallback_to_build_date"); simpl.
      * intros [H | []]. discriminate H.
      * intros [H | []]. apply Logged_inj in H.
        split; [exists e; reflexivity |]. split; [reflexivity | symmetry; exact H].
    + intros Hin. exfalso.
      destruct (is_shallow_clone w g) eqn:Hsh.
      * rewrite (init_shallow_trace w path config g Hrepo Hsh) in Hin.
        apply in_app_or in Hin as [Hin | Hin].
        { exact (only_ran_not_logged _ _ _ (commit_count_only_ran g) Hin). }
        destruct (outcome (commit_count g)) as [e | n]; [destruct Hin |].
        apply in_app_or in Hin as [Hin | Hin];
          destruct (_ && _) in Hin; try destruct Hin as [Hin | []];
          try discriminate Hin; destruct Hin.
      * rewrite (init_not_shallow w path config g Hrepo Hsh) in Hin. destruct Hin.
  - intros ([e He] & Hflag & ->). unfold __init__. rewrite He, Hflag.
    left. reflexivity.
Qed.

Lemma get_revision_date_eq w self path locale tz fb :
  get_revision_date_for_file w self path locale tz fb =
  (trace (obtain_timestamp w self path fb),
   match outcome (obtain_timestamp w self path fb) with
   | inr ts => outcome (_date_formats w ts locale tz)
   | inl e => inl e
   end).
Proof.
  rewrite (M_eta (get_revision_date_for_file w self path locale tz fb)).
  rewrite get_revision_date_trace, get_revision_date_outcome. reflexivity.
Qed.

(** The formatter does not read the clock. *)
Lemma date_formats_with_time w t ts locale tz :
  _date_formats (with_time w t) ts locale tz = _date_formats w ts locale tz.
Proof. reflexivity. Qed.

(** X6. An instance returned by [__init__] can be queried: the call
    either ends as the formatting of the obtained timestamp does, or,
    when the per-call fallback is off and [git log] fails, raises that
    failure. The only git command it runs is [git log] on the given path:
    once when the instance holds a repository, never in fallback-only
    mode. *)
Theorem constructed_instance_query :
  forall (w0 : World) (path0 : string) (config : gmap string Py.value) (self : Util),
    outcome (__init__ w0 path0 config) = inr self ->
    forall (w : World) (path locale time_zone : string) (fallback_to_build_date : bool),
      (outcome (get_revision_date_for_file w self path locale time_zone
                  fallback_to_build_date)
         = outcome (_date_formats w (obtained_timestamp w self path) locale time_zone)
       \/
       (fallback_to_build_date = false /\
        exists g f,
          repo self = Some g /\ log g path = inl f /\
          outcome (get_revision_date_for_file w self path locale time_zone
                     fallback_to_build_date) = inl (git_exn f))) /\
      List.filter is_ran
        (trace (get_revision_date_for_file w self path locale time_zone
                  fallback_to_build_date))
        = if fallback_enabled self then [] else [Ran (CmdLog path)].
Proof.
  intros w0 path0 config self Hinit w path locale tz fb.
  rewrite get_revision_date_eq. unfold outcome at 1 3, trace at 1. simpl fst. simpl snd.
  destruct (init_instance_invariant w0 path0 config self Hinit)
    as [(Hfb & _ & _) | (Hfb & g & Hrepo & _)].
  - rewrite (obtain_fallback_only w self path fb Hfb), Hfb.
    unfold obtained_timestamp. rewrite Hfb. split; [left |]; reflexivity.
  - rewrite (obtain_bound w self path fb g Hfb Hrepo), Hfb.
    unfold obtained_timestamp. rewrite Hfb, Hrepo.
    destruct (log g path) as [f | [| c s]] eqn:Hlog.
    + destruct fb.
      * split; [left |]; reflexivity.
      * split; [| reflexivity]. right. split; [reflexivity |].
        exists g, f. split; [reflexivity |]. split; [exact Hlog | reflexivity].
    + split; [left |]; reflexivity.
    + split; [left |]; reflexivity.
Qed.

Lemma constructed_instance_query_witness :
  List.filter is_ran
    (trace (get_revision_date_for_file Sample.full
              (Sample.bound (Sample.repo3 "/srv/site/.git")) "locked.md" "en" "UTC" true))
    = [Ran (CmdLog "locked.md")] /\
  List.filter is_ran
    (trace (get_revision_date_for_file Sample.full Sample.unbound "index.md" "en" "UTC" false))
    = [].
Proof.
  split.
  - apply (constructed_instance_query Sample.full "/srv/site/docs" ∅
             (Sample.bound (Sample.repo3 "/srv/site/.git")) eq_refl
             Sample.full "locked.md" "en" "UTC" true).
  - apply (constructed_instance_query Sample.bare "/srv/site/docs" Sample.fallback_on
             Sample.unbound eq_refl
             Sample.full "index.md" "en" "UTC" false).
Defined.

(** X7. For a file with history (the query prints something), the call
    runs [git log] once, logs nothing, and ends as the formatting of the
    printed text does: neither the per-call fallback flag nor the clock
    has any influence. *)
Theorem tracked_file_ignores_clock_and_flag :
  forall (w : World) (self : Util) (g : Git) (path locale time_zone s : string)
         (fb fb' : bool) (t : Q),
    fallback_enabled self = false ->
    repo self = Some g ->
    log g path = inr s ->
    s <> "" ->
    get_revision_date_for_file w self path locale time_zone fb =
      ([Ran (CmdLog path)], outcome (_date_formats w (OfLog s) locale time_zone)) /\
    get_revision_date_for_file (with_time w t) self path locale time_zone fb' =
      get_revision_date_for_file w self path locale time_zone fb.
Proof.
  intros w self g path locale tz s fb fb' t Hfb Hrepo Hlog Hs.
  destruct s as [| c s]; [congruence |].
  assert (H : forall w1 b,
             get_revision_date_for_file w1 self path locale tz b =
             ([Ran (CmdLog path)], outcome (_date_formats w1 (OfLog (String c s)) locale tz))).
  { intros w1 b. rewrite get_revision_date_eq.
    rewrite (obtain_bound w1 self path b g Hfb Hrepo), Hlog. reflexivity. }
  split; [apply H |].
  rewrite (H (with_time w t) fb'), (H w fb), date_formats_with_time. reflexivity.
Qed.

Lemma tracked_file_ignores_clock_and_flag_witness :
  get_revision_date_for_file Sample.full (Sample.bound (Sample.repo3 "/srv/site/.git"))
    "index.md" "en" "UTC" false
  = ([Ran (CmdLog "index.md")],
     inr (formats Sample.en (local_time 1690000000 Datetime.utc) "en")) /\
  get_revision_date_for_file (with_time Sample.full 0) (Sample.bound (Sample.repo3 "/srv/site/.git"))
    "index.md" "en" "UTC" true
  = get_revision_date_for_file Sample.full (Sample.bound (Sample.repo3 "/srv/site/.git"))
      "index.md" "en" "UTC" false.
Proof.
  destruct (tracked_file_ignores_clock_and_flag Sample.full
              (Sample.bound (Sample.repo3 "/srv/site/.git")) (Sample.repo3 "/srv/site/.git")
              "index.md" "en" "UTC" "1690000000" false true 0
              eq_refl eq_refl eq_refl) as [Hval Hsame].
  { discriminate. }
  split; [| exact Hsame].
  rewrite Hval. vm_compute. reflexivity.
Defined.

(** X8. For a file without history (the query succeeds and prints
    nothing), the call formats the clock reading and logs one warning,
    also when the per-call fallback is off: no error is raised for an
    untracked file. *)
Theorem untracked_file_gets_build_date :
  forall (w : World) (self : Util) (g : Git) (path locale time_zone : string) (fb : bool),
    fallback_enabled self = false ->
    repo self = Some g ->
    log g path = inr "" ->
    get_revision_date_for_file w self path locale time_zone fb =
      ([Ran (CmdLog path); Logged WARNING (msg_no_logs path)],
       outcome (_date_formats w (OfClock (time w)) locale time_zone)).
Proof.
  intros w self g path locale tz fb Hfb Hrepo Hlog.
  rewrite get_revision_date_eq, (obtain_bound w self path fb g Hfb Hrepo), Hlog.
  reflexivity.
Qed.

Lemma untracked_file_gets_build_date_witness :
  get_revision_date_for_file Sample.full (Sample.bound (Sample.repo3 "/srv/site/.git"))
    "new.md" "en" "UTC" false
  = ([Ran (CmdLog "new.md"); Logged WARNING (msg_no_logs "new.md")],
     inr (formats Sample.en (local_time 1700000000 Datetime.utc) "en")).
Proof.
  rewrite (untracked_file_gets_build_date Sample.full
             (Sample.bound (Sample.repo3 "/srv/site/.git")) (Sample.repo3 "/srv/site/.git")
             "new.md" "en" "UTC" false eq_refl eq_refl eq_refl).
  vm_compute. reflexivity.
Defined.

(** X9. When [git log] fails and the per-call fallback is on, the call
    ends exactly as a call on an instance in fallback-only mode does (for
    any path and flag), after two warnings: the one for the failure, then
    the one for the missing history. *)
Theorem failed_query_with_fallback :
  forall (w : World) (self self' : Util) (g : Git) (f : git_failure)
         (path path' locale time_zone : string) (fb' : bool),
    fallback_enabled self = false ->
    repo self = Some g ->
    log g path = inl f ->
    fallback_enabled self' = true ->
    outcome (get_revision_date_for_file w self path locale time_zone true) =
      outcome (get_revision_date_for_file w self' path' locale time_zone fb') /\
    trace (get_revision_date_for_file w self path locale time_zone true) =
      [Ran (CmdLog path);
       Logged WARNING (match f with
                       | CommandFailed _ _ => msg_log_failed_fallback path
                       | CommandNotFound => msg_no_git_fallback
                       end);
       Logged WARNING (msg_no_logs path)].
Proof.
  intros w self self' g f path path' locale tz fb' Hfb Hrepo Hlog Hfb'.
  rewrite !get_revision_date_eq.
  rewrite (obtain_bound w self path true g Hfb Hrepo), Hlog.
  rewrite (obtain_fallback_only w self' path' fb' Hfb').
  split; reflexivity.
Qed.

Lemma failed_query_with_fallback_witness :
  outcome (get_revision_date_for_file Sample.full
             (Sample.bound (Sample.repo3 "/srv/site/.git")) "locked.md" "en" "UTC" true)
  = outcome (get_revision_date_for_file Sample.full Sample.unbound "index.md" "en" "UTC" false) /\
  trace (get_revision_date_for_file Sample.full
           (Sample.bound (Sample.repo3 "/srv/site/.git")) "locked.md" "en" "UTC" true)
  = [Ran (CmdLog "locked.md"); Logged WARNING (msg_log_failed_fallback "locked.md");
     Logged WARNING (msg_no_logs "locked.md")].
Proof.
  apply (failed_query_with_fallback Sample.full
           (Sample.bound (Sample.repo3 "/srv/site/.git")) Sample.unbound
           (Sample.repo3 "/srv/site/.git") (CommandFailed 128 "fatal: unable to read")
           "locked.md" "index.md" "en" "UTC" false); reflexivity.
Defined.

(** X16. A query logs an error in one situation only: the instance
    holds a repository, the per-call fallback is off and [git log] fails;
    the message is then the one for that failure, and the failure is
    raised. *)
Theorem query_logs_error_iff_reraised :
  forall (w : World) (self : Util) (path locale time_zone : string)
         (fallback_to_build_date : bool) (msg : string),
    In (Logged ERROR msg)
       (trace (get_revision_date_for_file w self path locale time_zone
                 fallback_to_build_date)) <->
    fallback_enabled self = false /\
    fallback_to_build_date = false /\
    exists g f,
      repo self = Some g /\ log g path = inl f /\
      msg = match f with
            | CommandFailed _ _ => msg_log_failed_error path
            | CommandNotFound => msg_no_git_error
            end /\
      outcome (get_revision_date_for_file w self path locale time_zone
                 fallback_to_build_date) = inl (git_exn f).
Proof.
  intros w self path locale tz fb msg.
  rewrite get_revision_date_eq. unfold trace at 1, outcome at 1. simpl fst. simpl snd.
  destruct (fallback_enabled self) eqn:Hfb.
  { rewrite (obtain_fallback_only w self path fb Hfb). simpl.
    split; [intros [] | intros [H _]; discriminate H]. }
  destruct (repo self) as [g |] eqn:Hrepo.
  2:{ unfold obtain_timestamp, self_repo_log. rewrite Hfb, Hrepo. simpl.
      split; [intros [] | intros (_ & _ & g & f & H & _); discriminate H]. }
  rewrite (obtain_bound w self path fb g Hfb Hrepo).
  destruct (log g path) as [f | [| c s]] eqn:Hlog.
  - destruct fb; simpl.
    + split; [| intros (_ & H & _); discriminate H].
      intros [H | [H | [H | []]]]; discriminate H.
    + split.
      * intros [H | [H | []]]; [discriminate H |]. apply Logged_inj in H.
        split; [reflexivity |]. split; [reflexivity |].
        exists g, f. split; [reflexivity |]. split; [exact Hlog |].
        split; [symmetry; exact H | reflexivity].
      * intros (_ & _ & g' & f' & [= <-] & Hlog' & -> & _).
        rewrite Hlog in Hlog'. injection Hlog' as <-. right. left. reflexivity.
  - simpl. split.
    + intros [H | [H | []]]; discriminate H.
    + intros (_ & _ & g' & f' & [= <-] & Hlog' & _). rewrite Hlog in Hlog'. discriminate Hlog'.
  - simpl. split.
    + intros [H | []]. discriminate H.
    + intros (_ & _ & g' & f' & [= <-] & Hlog' & _). rewrite Hlog in Hlog'. discriminate Hlog'.
Qed.

(* ===================================================================== *)
(** * More on the date formatter *)
(* ===================================================================== *)

Lemma all_from_spec (f : Z -> bool) (n : nat) (k : Z) :
  all_from f k n = true -> forall j, k <= j < k + Z.of_nat n -> f j = true.
Proof.
  revert k. induction n as [| n IH]; intros k Hall j Hj; [lia |].
  simpl in Hall. apply andb_true_iff in Hall as [Hk Hrest].
  destruct (Z.eq_dec j k) as [-> | Hne]; [exact Hk |].
  apply (IH (k + 1) Hrest). lia.
Qed.

(** Every day of a 400-year cycle has the fields of a date; the year
    400 of the cycle starts after day 146036. *)
Lemma civil_of_doe_bounds (doe : Z) :
  0 <= doe < 146097 ->
  let '(y, m, d) := civil_of_doe doe in
  0 <= y <= 400 /\ 1 <= m <= 12 /\ 1 <= d <= 31 /\ (doe <= 146036 -> y <= 399).
Proof.
  intros H. unfold civil_of_doe. cbv zeta.
  set (yoe := (doe - doe / 1460 + doe / 36524 - doe / 146096) / 365).
  set (doy := doe - (365 * yoe + yoe / 4 - yoe / 100)).
  set (mp := (5 * doy + 2) / 153).
  assert (Hy : 0 <= yoe <= 399 /\ 0 <= doy <= 365 /\
               (doe <= 146036 -> yoe < 399 \/ doy <= 305)).
  { unfold doy, yoe. Z.div_mod_to_equations. lia. }
  assert (Hmp : 0 <= mp <= 11 /\ (doy <= 305 -> mp < 10) /\ (mp < 10 -> doy <= 305) /\
                1 <= doy - (153 * mp + 2) / 5 + 1 <= 31).
  { unfold mp. Z.div_mod_to_equations. lia. }
  destruct (mp <? 10) eqn:Hlt; [apply Z.ltb_lt in Hlt | apply Z.ltb_ge in Hlt].
  - destruct (mp + 3 <=? 2) eqn:H2; [apply Z.leb_le in H2; lia |]. lia.
  - destruct (mp - 9 <=? 2) eqn:H2; [| apply Z.leb_gt in H2; lia]. lia.
Qed.

(** From the year 1000 on, a year takes four digits unpadded. *)
Lemma four_digits_checked :
  all_from (fun y => String.eqb (Fmt.zero_pad 4 y) (Fmt.str y)
                     && Nat.eqb (String.length (Fmt.str y)) 4)
           1000 (Z.to_nat 9000) = true.
Proof. vm_compute. reflexivity. Qed.

Lemma four_digit_year (y : Z) :
  1000 <= y <= 9999 ->
  Fmt.zero_pad 4 y = Fmt.str y /\ String.length (Fmt.str y) = 4%nat.
Proof.
  intros Hy.
  pose proof (all_from_spec _ _ _ four_digits_checked y ltac:(lia)) as H.
  apply andb_true_iff in H as [H1 H2].
  split; [apply String.eqb_eq, H1 | apply Nat.eqb_eq, H2].
Qed.

(** [civil_from_days] works cycle by cycle. *)
Lemma civil_from_days_cycle (z : Z) :
  Datetime.civil_from_days z =
  let '(y, m, d) := civil_of_doe ((z + 719468) mod 146097) in
  (y + 400 * ((z + 719468) / 146097), m, d).
Proof.
  unfold Datetime.civil_from_days, civil_of_doe. cbv zeta.
  replace (z + 719468 - (z + 719468) / 146097 * 146097) with ((z + 719468) mod 146097)
    by (rewrite Z.mod_eq by lia; lia).
  destruct (_ <=? 2); f_equal; f_equal; lia.
Qed.

(** The fields of a date-time that [datetime] can represent. *)
Lemma date_fields_in_range (t : Datetime.aware) :
  in_range (Datetime.wall t) ->
  0 <= Datetime.year t <= 9999 /\
  1 <= Datetime.month t <= 12 /\
  1 <= Datetime.day t <= 31.
Proof.
  unfold in_range, Datetime.min_wall, Datetime.max_wall.
  unfold Datetime.year, Datetime.month, Datetime.day. intros Hw.
  rewrite civil_from_days_cycle.
  set (z := Datetime.wall t / 86400 + 719468).
  assert (Hz : 306 <= z <= 3652364).
  { unfold z. Z.div_mod_to_equations. lia. }
  assert (Hera : 0 <= z / 146097 <= 24).
  { Z.div_mod_to_equations. lia. }
  pose proof (Z.mod_pos_bound z 146097 ltac:(lia)) as Hdoe.
  pose proof (civil_of_doe_bounds (z mod 146097) Hdoe) as Hok.
  destruct (civil_of_doe (z mod 146097)) as [[y m] d]. simpl.
  destruct Hok as (Hy & Hm & Hd & Hlast).
  split; [| split; lia].
  split; [lia |].
  destruct (Z.eq_dec (z / 146097) 24) as [Heq | Hne]; [| lia].
  assert (z mod 146097 <= 146036) by (rewrite Z.mod_eq, Heq by lia; lia).
  lia.
Qed.

Lemma strftime_date_length (t : Datetime.aware) :
  in_range (Datetime.wall t) ->
  1000 <= Datetime.year t ->
  String.length (Datetime.strftime t "%Y-%m-%d") = 10%nat.
Proof.
  intros Ht Hyear. destruct (date_fields_in_range t Ht) as (Hy & Hm & Hd).
  change (Datetime.strftime t "%Y-%m-%d")
    with (Fmt.str (Datetime.year t) +:+ "-"
          +:+ Fmt.zero_pad 2 (Datetime.month t) +:+ "-"
          +:+ Fmt.zero_pad 2 (Datetime.day t) +:+ "").
  rewrite !string_app_length, !zero_pad2_length by lia.
  rewrite (proj2 (four_digit_year (Datetime.year t) ltac:(lia))). reflexivity.
Qed.

(** From the year 1000 on, [isoformat] and [strftime] print the same
    date. *)
Lemma isoformat_parts (t : Datetime.aware) :
  in_range (Datetime.wall t) ->
  1000 <= Datetime.year t ->
  Datetime.isoformat t =
  Datetime.strftime t "%Y-%m-%d" +:+ "T" +:+ Datetime.strftime t "%H:%M:%S"
  +:+ Datetime.format_offset (Datetime.utcoffset t).
Proof.
  intros Ht Hyear. destruct (date_fields_in_range t Ht) as (Hy & _).
  unfold Datetime.isoformat.
  rewrite (proj1 (four_digit_year (Datetime.year t) ltac:(lia))).
  change (Datetime.strftime t "%Y-%m-%d")
    with (Fmt.str (Datetime.year t) +:+ "-"
          +:+ Fmt.zero_pad 2 (Datetime.month t) +:+ "-"
          +:+ Fmt.zero_pad 2 (Datetime.day t) +:+ "").
  change (Datetime.strftime t "%H:%M:%S")
    with (Fmt.zero_pad 2 (Datetime.hour t) +:+ ":"
          +:+ Fmt.zero_pad 2 (Datetime.minute t) +:+ ":"
          +:+ Fmt.zero_pad 2 (Datetime.second t) +:+ "").
  rewrite !string_app_assoc, !string_app_nil_l. reflexivity.
Qed.

Lemma last8_datetime (l : Babel.Locale) (t : Datetime.aware) :
  last8 (Babel.long_date l (Datetime.year t) (Datetime.month t) (Datetime.day t)
         +:+ " " +:+ Datetime.strftime t "%H:%M:%S")
  = Datetime.strftime t "%H:%M:%S".
Proof. rewrite <- string_app_assoc. apply last8_app, strftime_time_length. Qed.

(** X10. A mapping returned by [_date_formats] has exactly the five
    keys [date], [datetime], [iso_date], [iso_datetime] and [timeago]. *)
Theorem date_formats_keys :
  forall (w : World) (ts : timestamp) (locale time_zone : string)
         (d : gmap string string),
    outcome (_date_formats w ts locale time_zone) = inr d ->
    dom d = list_to_set ["date"; "datetime"; "iso_date"; "iso_datetime"; "timeago"]
      :> gset string.
Proof.
  intros w ts locale tz d Hd.
  apply date_formats_inv in Hd as (n & z & l & _ & _ & _ & _ & _ & ->).
  unfold formats. rewrite !dom_insert_L, dom_empty_L. simpl. set_solver.
Qed.

Lemma date_formats_keys_witness :
  dom (formats Sample.en (local_time 1690000000 Sample.kolkata) "en")
  = list_to_set ["date"; "datetime"; "iso_date"; "iso_datetime"; "timeago"] :> gset string.
Proof.
  apply (date_formats_keys Sample.full (OfLog "1690000000") "en" "Asia/Kolkata").
  vm_compute. reflexivity.
Defined.

(** X11. In a mapping returned by [_date_formats], [datetime] is the
    [date] entry, one space, and the time of day; [date] is the long
    format of the locale for the local day. *)
Theorem datetime_is_date_and_time :
  forall (w : World) (ts : timestamp) (locale time_zone : string)
         (d : gmap string string),
    outcome (_date_formats w ts locale time_zone) = inr d ->
    exists (date datetime : string) (n : Z) (z : Datetime.timezone) (l : Babel.Locale),
      d !! "date" = Some date /\
      d !! "datetime" = Some datetime /\
      int_timestamp ts = inr n /\
      get_timezone w time_zone = inr z /\
      Locale_parse w locale = inr l /\
      date = Babel.long_date l (Datetime.year (local_time n z))
               (Datetime.month (local_time n z)) (Datetime.day (local_time n z)) /\
      datetime = date +:+ " " +:+ last8 datetime /\
      String.length datetime = (String.length date + 9)%nat.
Proof.
  intros w ts locale tz d Hd.
  apply date_formats_inv in Hd as (n & z & l & Hts & _ & Htz & _ & Hl & ->).
  eexists _, _, n, z, l.
  split; [reflexivity |]. split; [reflexivity |].
  split; [exact Hts |]. split; [exact Htz |]. split; [exact Hl |].
  split; [reflexivity |]. split.
  - rewrite last8_datetime. reflexivity.
  - rewrite !string_app_length, strftime_time_length. simpl. lia.
Qed.

Lemma datetime_is_date_and_time_witness :
  exists (date datetime : string),
    formats Sample.en (local_time 1690000000 Sample.kolkata) "en" !! "date" = Some date /\
    formats Sample.en (local_time 1690000000 Sample.kolkata) "en" !! "datetime"
      = Some datetime /\
    datetime = date +:+ " " +:+ last8 datetime.
Proof.
  destruct (datetime_is_date_and_time Sample.full (OfLog "1690000000") "en" "Asia/Kolkata"
              (formats Sample.en (local_time 1690000000 Sample.kolkata) "en"))
    as (date & datetime & n & z & l & H1 & H2 & _ & _ & _ & _ & H3 & _).
  { vm_compute. reflexivity. }
  exists date, datetime. split; [exact H1 |]. split; [exact H2 | exact H3].
Defined.

(** X12. In a mapping returned by [_date_formats] for a local date
    from the year 1000 on, the [timeago] entry is a [span] element whose
    [datetime] attribute is [iso_date], the letter T, the time of day
    that ends [datetime], and the offset of the zone from UTC, and whose
    [locale] attribute is the locale identifier as given. (Before the
    year 1000 the two dates differ: [isoformat] pads the year and
    [strftime] does not.) *)
Theorem timeago_embeds_iso_timestamp :
  forall (w : World) (ts : timestamp) (locale time_zone : string)
         (d : gmap string string) (n : Z) (z : Datetime.timezone),
    outcome (_date_formats w ts locale time_zone) = inr d ->
    int_timestamp ts = inr n ->
    get_timezone w time_zone = inr z ->
    1000 <= Datetime.year (local_time n z) ->
    exists (iso_date datetime timeago : string),
      d !! "iso_date" = Some iso_date /\
      d !! "datetime" = Some datetime /\
      d !! "timeago" = Some timeago /\
      timeago =
        "<span class='timeago' datetime='" +:+ iso_date +:+ "T" +:+ last8 datetime
        +:+ Datetime.format_offset (Datetime.utcoffset_at z n)
        +:+ "' locale='" +:+ locale +:+ "'></span>".
Proof.
  intros w ts locale tz d n z Hd Hts Htz Hyear.
  apply date_formats_inv in Hd as (n0 & z0 & l & Hts0 & _ & Htz0 & Hloc & _ & ->).
  rewrite Hts in Hts0. injection Hts0 as <-.
  rewrite Htz in Htz0. injection Htz0 as <-.
  eexists _, _, _.
  split; [reflexivity |]. split; [reflexivity |]. split; [reflexivity |].
  rewrite last8_datetime. unfold timeago_span.
  rewrite (isoformat_parts (local_time n z) Hloc Hyear).
  rewrite !string_app_assoc. reflexivity.
Qed.

Lemma timeago_embeds_iso_timestamp_witness :
  exists (iso_date datetime timeago : string),
    formats Sample.en (local_time 1690000000 Sample.kolkata) "en" !! "iso_date"
      = Some iso_date /\
    formats Sample.en (local_time 1690000000 Sample.kolkata) "en" !! "datetime"
      = Some datetime /\
    formats Sample.en (local_time 1690000000 Sample.kolkata) "en" !! "timeago"
      = Some timeago /\
    timeago =
      "<span class='timeago' datetime='" +:+ iso_date +:+ "T" +:+ last8 datetime
      +:+ "+05:30" +:+ "' locale='" +:+ "en" +:+ "'></span>".
Proof.
  apply (timeago_embeds_iso_timestamp Sample.full (OfLog "1690000000") "en"
           "Asia/Kolkata"
           (formats Sample.en (local_time 1690000000 Sample.kolkata) "en")
           1690000000 Sample.kolkata).
  - vm_compute. reflexivity.
  - reflexivity.
  - reflexivity.
  - vm_compute. discriminate.
Defined.

(** X13. In a mapping returned by [_date_formats] for a local date
    from the year 1000 on, [iso_date] takes 10 characters and
    [iso_datetime] 19. (The year is printed unpadded, so an earlier date
    gives shorter entries.) *)
Theorem iso_entries_have_fixed_width :
  forall (w : World) (ts : timestamp) (locale time_zone : string)
         (d : gmap string string) (n : Z) (z : Datetime.timezone),
    outcome (_date_formats w ts locale time_zone) = inr d ->
    int_timestamp ts = inr n ->
    get_timezone w time_zone = inr z ->
    1000 <= Datetime.year (local_time n z) ->
    exists (iso_date iso_datetime : string),
      d !! "iso_date" = Some iso_date /\
      d !! "iso_datetime" = Some iso_datetime /\
      String.length iso_date = 10%nat /\
      String.length iso_datetime = 19%nat.
Proof.
  intros w ts locale tz d n z Hd Hts Htz Hyear.
  apply date_formats_inv in Hd as (n0 & z0 & l & Hts0 & _ & Htz0 & Hloc & _ & ->).
  rewrite Hts in Hts0. injection Hts0 as <-.
  rewrite Htz in Htz0. injection Htz0 as <-.
  eexists _, _. split; [reflexivity |]. split; [reflexivity |].
  assert (Hlen : String.length (Datetime.strftime (local_time n z) "%Y-%m-%d") = 10%nat)
    by (apply strftime_date_length; assumption).
  split; [exact Hlen |].
  rewrite strftime_iso_datetime, !string_app_length, Hlen, strftime_time_length.
  reflexivity.
Qed.

Lemma iso_entries_have_fixed_width_witness :
  exists (iso_date iso_datetime : string),
    formats Sample.en (local_time 1690000000 Sample.kolkata) "en" !! "iso_date"
      = Some iso_date /\
    formats Sample.en (local_time 1690000000 Sample.kolkata) "en" !! "iso_datetime"
      = Some iso_datetime /\
    String.length iso_date = 10%nat /\
    String.length iso_datetime = 19%nat.
Proof.
  apply (iso_entries_have_fixed_width Sample.full (OfLog "1690000000") "en" "Asia/Kolkata"
           (formats Sample.en (local_time 1690000000 Sample.kolkata) "en")
           1690000000 Sample.kolkata).
  - vm_compute. reflexivity.
  - reflexivity.
  - reflexivity.
  - vm_compute. discriminate.
Defined.

Lemma int_float_inject_Z (k : Z) : Py.int_float (inject_Z k) = k.
Proof. unfold Py.int_float. simpl. apply Z.quot_1_r. Qed.

(** The entries other than [timeago] are read off the wall-clock
    reading alone. *)
Lemma same_wall_same_entries (l : Babel.Locale) (a b : Datetime.aware) (locale : string) :
  Datetime.wall a = Datetime.wall b ->
  Forall (fun k => formats l a locale !! k = formats l b locale !! k) date_keys.
Proof.
  intros Hw.
  assert (Hy : Datetime.year a = Datetime.year b) by (unfold Datetime.year; rewrite Hw; reflexivity).
  assert (Hm : Datetime.month a = Datetime.month b) by (unfold Datetime.month; rewrite Hw; reflexivity).
  assert (Hd : Datetime.day a = Datetime.day b) by (unfold Datetime.day; rewrite Hw; reflexivity).
  assert (Hh : Datetime.hour a = Datetime.hour b) by (unfold Datetime.hour; rewrite Hw; reflexivity).
  assert (Hmi : Datetime.minute a = Datetime.minute b)
    by (unfold Datetime.minute; rewrite Hw; reflexivity).
  assert (Hs : Datetime.second a = Datetime.second b)
    by (unfold Datetime.second; rewrite Hw; reflexivity).
  assert (Htime : Datetime.strftime a "%H:%M:%S" = Datetime.strftime b "%H:%M:%S").
  { change (Datetime.strftime a "%H:%M:%S")
      with (Fmt.zero_pad 2 (Datetime.hour a) +:+ ":"
            +:+ Fmt.zero_pad 2 (Datetime.minute a) +:+ ":"
            +:+ Fmt.zero_pad 2 (Datetime.second a) +:+ "").
    rewrite Hh, Hmi, Hs. reflexivity. }
  assert (Hdate : Datetime.strftime a "%Y-%m-%d" = Datetime.strftime b "%Y-%m-%d").
  { change (Datetime.strftime a "%Y-%m-%d")
      with (Fmt.str (Datetime.year a) +:+ "-"
            +:+ Fmt.zero_pad 2 (Datetime.month a) +:+ "-"
            +:+ Fmt.zero_pad 2 (Datetime.day a) +:+ "").
    rewrite Hy, Hm, Hd. reflexivity. }
  unfold date_keys. repeat constructor.
  - change (Some (Babel.long_date l (Datetime.year a) (Datetime.month a) (Datetime.day a))
            = Some (Babel.long_date l (Datetime.year b) (Datetime.month b) (Datetime.day b))).
    rewrite Hy, Hm, Hd. reflexivity.
  - change (Some (Babel.long_date l (Datetime.year a) (Datetime.month a) (Datetime.day a)
                  +:+ " " +:+ Datetime.strftime a "%H:%M:%S")
            = Some (Babel.long_date l (Datetime.year b) (Datetime.month b) (Datetime.day b)
                    +:+ " " +:+ Datetime.strftime b "%H:%M:%S")).
    rewrite Hy, Hm, Hd, Htime. reflexivity.
  - change (Some (Datetime.strftime a "%Y-%m-%d") = Some (Datetime.strftime b "%Y-%m-%d")).
    rewrite Hdate. reflexivity.
  - change (Some (Datetime.strftime a "%Y-%m-%d %H:%M:%S")
            = Some (Datetime.strftime b "%Y-%m-%d %H:%M:%S")).
    rewrite !strftime_iso_datetime, Hdate, Htime. reflexivity.
Qed.

(** X14. Reading a timestamp in a time zone is reading, in UTC, the
    timestamp moved by the offset of the zone: the entries [date],
    [datetime], [iso_date] and [iso_datetime] of the two mappings are the
    same (the [timeago] entry differs by its offset). *)
Theorem zone_reading_is_utc_reading_of_shifted_instant :
  forall (w : World) (ts : timestamp) (locale time_zone : string)
         (d : gmap string string) (n : Z) (z : Datetime.timezone),
    outcome (_date_formats w ts locale time_zone) = inr d ->
    int_timestamp ts = inr n ->
    get_timezone w time_zone = inr z ->
    exists d' : gmap string string,
      outcome (_date_formats w (OfClock (inject_Z (n + Datetime.utcoffset_at z n)))
                 locale "UTC") = inr d' /\
      Forall (fun k => d' !! k = d !! k) date_keys.
Proof.
  intros w ts locale tz d n z Hd Hts Htz.
  apply date_formats_inv in Hd as (n0 & z0 & l & Hts0 & _ & Htz0 & Hloc & Hl & ->).
  rewrite Hts in Hts0. injection Hts0 as <-.
  rewrite Htz in Htz0. injection Htz0 as <-.
  set (k := n + Datetime.utcoffset_at z n) in *.
  exists (formats l (local_time k Datetime.utc) locale). split.
  - rewrite (date_formats_ok w (OfClock (inject_Z k)) locale "UTC" k Datetime.utc l).
    + reflexivity.
    + simpl. rewrite int_float_inject_Z. reflexivity.
    + exact Hloc.
    + apply get_timezone_UTC.
    + simpl. rewrite Z.add_0_r. exact Hloc.
    + exact Hl.
  - apply same_wall_same_entries. unfold local_time. simpl. fold k. lia.
Qed.

Lemma zone_reading_is_utc_reading_of_shifted_instant_witness :
  exists d' : gmap string string,
    outcome (_date_formats Sample.full (OfClock (inject_Z (1690000000 + 19800))) "en" "UTC")
      = inr d' /\
    d' !! "iso_datetime" = Some "2023-07-22 09:56:40" /\
    Forall (fun k => d' !! k
                     = formats Sample.en (local_time 1690000000 Sample.kolkata) "en" !! k)
           date_keys.
Proof.
  destruct (zone_reading_is_utc_reading_of_shifted_instant Sample.full (OfLog "1690000000")
              "en" "Asia/Kolkata"
              (formats Sample.en (local_time 1690000000 Sample.kolkata) "en")
              1690000000 Sample.kolkata) as (d' & Hd' & Hsame).
  { vm_compute. reflexivity. }
  { reflexivity. }
  { reflexivity. }
  exists d'. split; [exact Hd' |]. split; [| exact Hsame].
  inversion Hsame as [| ? ? _ Hrest]. inversion Hrest as [| ? ? _ Hrest2].
  inversion Hrest2 as [| ? ? _ Hrest3]. inversion Hrest3 as [| ? ? Hiso _].
  rewrite Hiso. vm_compute. reflexivity.
Defined.

(** X15. The formatter sees whole seconds only: a clock reading whose
    integer part is [k >= 0] is formatted exactly as the text that
    [git log] prints for a commit made at second [k]. *)
Theorem clock_reading_is_truncated :
  forall (w : World) (x : Q) (locale time_zone : string),
    0 <= Py.int_float x ->
    _date_formats w (OfClock x) locale time_zone =
    _date_formats w (OfLog (Fmt.str (Py.int_float x))) locale time_zone.
Proof.
  intros w x locale tz Hx. unfold _date_formats.
  change (int_timestamp (OfClock x)) with (@inr Py.exn Z (Py.int_float x)).
  change (int_timestamp (OfLog (Fmt.str (Py.int_float x))))
    with (Py.int_str (Fmt.str (Py.int_float x))).
  rewrite (int_str_of_str _ Hx). reflexivity.
Qed.

Lemma clock_reading_is_truncated_witness :
  _date_formats Sample.full (OfClock 1700000000.5) "en" "UTC" =
  _date_formats Sample.full (OfLog "1700000000") "en" "UTC".
Proof.
  rewrite (clock_reading_is_truncated Sample.full 1700000000.5 "en" "UTC").
  - reflexivity.
  - vm_compute. discriminate.
Defined.
